(** * Verification of the AutoML data pipeline: preprocessing, financial
      feature building and the model registry.

    The development embeds the three Python modules
    [src/data_preprocessing.py], [src/financial_data.py] and
    [src/model_manager.py].  Numbers are exact rationals extended with the
    IEEE special values that the code can produce by dividing by zero;
    DataFrames live in a store so that copies and aliases are visible. *)

From Stdlib Require Import QArith Qround ZArith Lia Lqa String Ascii List Bool.
From stdpp Require Import base option list gmap strings pretty.

Open Scope Q_scope.
Open Scope string_scope.
Open Scope list_scope.

(** Strict comparison of two numbers, [a < b]. *)
Definition Qltb (a b : Q) : bool := negb (Qle_bool b a).

(* ===================================================================== *)
(** * Part I.  The model registry ([src/model_manager.py])               *)
(* ===================================================================== *)

Module Registry.

(** One entry of [model_metadata.json], with the fields [save_model] writes. *)
Record model_record := mk_record {
  model_name : string;
  model_type : string;
  timestamp : string;
  datetime : string;
  model_path : string;
  performance_metrics : gmap string Q;
  preprocessing_params : option (gmap string string);
  feature_columns : option (list string);
  file_size_mb : Q }.

(** [self.metadata]: a Python dict, iterated in insertion order. *)
Definition metadata := list (string * model_record).

(** The model directory: a path exists iff it has a size (in bytes). *)
Definition filesystem := gmap string Z.

(** [str.upper] on ASCII letters. *)
Definition upper_ascii (c : ascii) : ascii :=
  let n := nat_of_ascii c in
  if ((97 <=? n)%nat && (n <=? 122)%nat)%bool then ascii_of_nat (n - 32) else c.

Fixpoint upper (s : string) : string :=
  match s with
  | EmptyString => EmptyString
  | String c s' => String (upper_ascii c) (upper s')
  end.

(** [metric.upper() in ['RMSE', 'MAE', 'MSE']] *)
Definition lower_is_better (metric : string) : bool :=
  let m := upper metric in
  (String.eqb m "RMSE" || String.eqb m "MAE" || String.eqb m "MSE")%bool.

(** One iteration of the loop of [get_best_model]; the accumulator holds the
    pair of locals [(best_model_id, best_score)], [None] while both are
    [None]. *)
Definition best_step (metric task_type : string)
    (acc : option (string * Q)) (entry : string * model_record)
  : option (string * Q) :=
  let '(model_id, md) := entry in
  if negb (String.eqb (model_type md) task_type) then acc
  else
    match performance_metrics md !! metric with
    | None => acc
    | Some score =>
        match acc with
        | None => Some (model_id, score)
        | Some (best_model_id, best_score) =>
            if lower_is_better metric then
              if Qltb score best_score then Some (model_id, score) else acc
            else
              if Qltb best_score score then Some (model_id, score) else acc
        end
    end.

(** [model_id = f"{model_name}_{timestamp}"] in [save_model]. *)
Definition new_model_id (model_name timestamp : string) : string :=
  model_name +:+ "_" +:+ timestamp.

(** [get_best_model]: [None] stands for the returned pair [(None, None)]. *)
Definition get_best_model (md : metadata) (metric task_type : string)
  : option (string * Q) :=
  match md with
  | [] => None
  | _ =>
      match fold_left (best_step metric task_type) md None with
      | Some (best_model_id, best_score) =>
          if String.eqb best_model_id "" then None
          else Some (best_model_id, best_score)
      | None => None
      end
  end.


(** Python's [/] on numbers raises [ZeroDivisionError] on a zero divisor. *)
Definition pydiv (a b : Q) : option Q :=
  if Qeq_bool b 0 then None else Some (Qred (a / b)).

(** [round(x, 2)]: nearest multiple of 1/100, ties to the even one. *)
Definition round_half_even (x : Q) : Z :=
  let f := Qfloor x in
  let r := x - inject_Z f in
  if Qltb r (1 # 2) then f
  else if Qltb (1 # 2) r then (f + 1)%Z
  else if Z.even f then f else (f + 1)%Z.

Definition round2 (x : Q) : Q := Qred (inject_Z (round_half_even (x * 100)) / 100).

Record storage_usage := mk_usage {
  total_size_mb : Q;
  model_count : Z;
  avg_size_mb : Q }.

(** Loop of [get_storage_usage]: the locals [(total_size, model_count)]. *)
Definition usage_step (fs : filesystem) (acc : Z * Z) (entry : string * model_record)
  : Z * Z :=
  let '(total_size, count) := acc in
  match fs !! model_path (snd entry) with
  | Some size => ((total_size + size)%Z, (count + 1)%Z)
  | None => acc
  end.

(** [get_storage_usage]; [None] would be an uncaught [ZeroDivisionError]. *)
Definition get_storage_usage (fs : filesystem) (md : metadata) : option storage_usage :=
  let '(total_size, count) := fold_left (usage_step fs) md (0%Z, 0%Z) in
  mb ← pydiv (inject_Z total_size) (1024 * 1024);
  avg ← pydiv mb (inject_Z (Z.max count 1));
  Some {| total_size_mb := round2 mb; model_count := count; avg_size_mb := round2 avg |}.

(** The entries whose artifact file exists. *)
Definition existing (fs : filesystem) (md : metadata) : list (string * model_record) :=
  List.filter (fun entry => bool_decide (is_Some (fs !! model_path (snd entry)))) md.

Definition size_on_disk (fs : filesystem) (entry : string * model_record) : Z :=
  default 0%Z (fs !! model_path (snd entry)).

Definition sumZ (l : list Z) : Z := fold_right Z.add 0%Z l.

(** ** The manager object

    [self.metadata] is a dict: the operations below keep the keys of the
    list distinct. *)

(** [model_id in self.metadata] and [self.metadata[model_id]] *)
Fixpoint dict_get (model_id : string) (md : metadata) : option model_record :=
  match md with
  | [] => None
  | (k, r) :: md' => if String.eqb k model_id then Some r else dict_get model_id md'
  end.

(** [self.metadata[model_id] = r]: a known key keeps its place, a new one
    goes to the end. *)
Fixpoint dict_set (model_id : string) (r : model_record) (md : metadata) : metadata :=
  match md with
  | [] => [(model_id, r)]
  | (k, r') :: md' =>
      if String.eqb k model_id then (k, r) :: md'
      else (k, r') :: dict_set model_id r md'
  end.

(** [del self.metadata[model_id]] *)
Definition dict_del (model_id : string) (md : metadata) : metadata :=
  List.filter (fun entry => negb (String.eqb (fst entry) model_id)) md.

(** What is found at a path of the model directory: a pickle of a model, or
    a file [joblib.load] fails on with the given exception text. *)
Inductive file (model : Type) :=
  | Pickle (m : model) (size : Z)
  | Unreadable (size : Z) (error : string).
Arguments Pickle {model} m size.
Arguments Unreadable {model} size error.

(** [path.stat().st_size] *)
Definition st_size {model : Type} (f : file model) : Z :=
  match f with
  | Pickle _ size => size
  | Unreadable size _ => size
  end.

(** The outcome of [joblib.dump(model, path)]: the size of the pickle it
    wrote, or the text of its exception and what the failed write left at
    the path. *)
Inductive dump_result (model : Type) :=
  | Dumped (size : Z)
  | DumpFailed (text : string) (leftover : option (file model)).
Arguments Dumped {model} size.
Arguments DumpFailed {model} text leftover.

(** The routines of joblib and pathlib that are taken as given. *)
Class Joblib := {
  (** the objects handed to [save_model] *)
  model : Type;
  joblib_dump : model -> string -> dump_result model;
  (** [str(self.models_dir / name)] *)
  in_models_dir : string -> string }.

(** Messages shown through streamlit. *)
Inductive message :=
  | Success (text : string)
  | Error (text : string)
  | Warning (text : string)
  | Info (text : string).

Section WithJoblib.
Context `{Joblib}.

(** A [ModelManager] with the part of the file system it works on: the
    artifact files of the model directory and [model_metadata.json], whose
    path is taken to differ from every artifact path.  Reading and writing
    these files is taken to succeed. *)
Record manager := mk_manager {
  self_metadata : metadata;
  disk : gmap string (file model);
  metadata_file : option metadata;
  messages : list message }.

Definition show (msg : message) (st : manager) : manager :=
  {| self_metadata := self_metadata st; disk := disk st;
     metadata_file := metadata_file st; messages := messages st ++ [msg] |}.

(** [load_metadata]: the contents of the JSON file, [{}] without one. *)
Definition load_metadata (st : manager) : manager :=
  {| self_metadata := default [] (metadata_file st); disk := disk st;
     metadata_file := metadata_file st; messages := messages st |}.

(** [save_metadata] *)
Definition save_metadata (st : manager) : manager :=
  {| self_metadata := self_metadata st; disk := disk st;
     metadata_file := Some (self_metadata st); messages := messages st |}.

(** [ModelManager(models_dir)] on a directory in the given state. *)
Definition new_manager (files : gmap string (file model)) (json : option metadata)
  : manager :=
  load_metadata {| self_metadata := []; disk := files; metadata_file := json;
                   messages := [] |}.

Definition set_disk (d : gmap string (file model)) (st : manager) : manager :=
  {| self_metadata := self_metadata st; disk := d;
     metadata_file := metadata_file st; messages := messages st |}.

Definition set_metadata (md : metadata) (st : manager) : manager :=
  {| self_metadata := md; disk := disk st;
     metadata_file := metadata_file st; messages := messages st |}.

(** [save_model(model, model_name, model_type, performance_metrics,
    preprocessing_params=None, feature_columns=None)]; [timestamp] and
    [now] are the two readings of the clock,
    [datetime.now().strftime("%Y%m%d_%H%M%S")] and
    [datetime.now().isoformat()].  The size is divided by the non-zero
    literal [1024 * 1024]. *)
Definition save_model (m : model) (model_name model_type : string)
    (performance_metrics : gmap string Q)
    (preprocessing_params : option (gmap string string))
    (feature_columns : option (list string))
    (timestamp now : string) (st : manager) : option string * manager :=
  let model_id := new_model_id model_name timestamp in
  let model_path := in_models_dir (model_id +:+ ".pkl") in
  match joblib_dump m model_path with
  | Dumped size =>
      let st := set_disk (<[model_path := Pickle m size]> (disk st)) st in
      let record :=
        {| model_name := model_name;
           model_type := model_type;
           timestamp := timestamp;
           datetime := now;
           model_path := model_path;
           performance_metrics := performance_metrics;
           preprocessing_params := preprocessing_params;
           feature_columns := feature_columns;
           file_size_mb := round2 (Qred (inject_Z size / (1024 * 1024))) |} in
      let st := set_metadata (dict_set model_id record (self_metadata st)) st in
      let st := save_metadata st in
      (Some model_id,
       show (Success ("Model saved successfully as " +:+ model_id)) st)
  | DumpFailed text leftover =>
      let st := match leftover with
                | Some f => set_disk (<[model_path := f]> (disk st)) st
                | None => st
                end in
      (None, show (Error ("Error saving model: " +:+ text)) st)
  end.

(** [load_model(model_id)]; [None] stands for the pair [(None, None)]. *)
Definition load_model (model_id : string) (st : manager)
  : option (model * model_record) * manager :=
  match dict_get model_id (self_metadata st) with
  | None =>
      (None, show (Error ("Model " +:+ model_id +:+ " not found in metadata.")) st)
  | Some record =>
      match disk st !! model_path record with
      | None =>
          (None,
           show (Error ("Model file " +:+ model_path record +:+ " not found.")) st)
      | Some (Pickle m _) => (Some (m, record), st)
      | Some (Unreadable _ text) =>
          (None, show (Error ("Error loading model: " +:+ text)) st)
      end
  end.

(** [delete_model(model_id)] *)
Definition delete_model (model_id : string) (st : manager) : bool * manager :=
  match dict_get model_id (self_metadata st) with
  | None => (false, show (Error ("Model " +:+ model_id +:+ " not found.")) st)
  | Some record =>
      let st := set_disk (delete (model_path record) (disk st)) st in
      let st := set_metadata (dict_del model_id (self_metadata st)) st in
      let st := save_metadata st in
      (true, show (Success ("Model " +:+ model_id +:+ " deleted successfully.")) st)
  end.

(** [get_model_details(model_id)] *)
Definition get_model_details (model_id : string) (st : manager) : option model_record :=
  dict_get model_id (self_metadata st).

(** [x[1].get('datetime', '') > y[1].get('datetime', '')] on two items. *)
Definition newer (x y : string * model_record) : bool :=
  match String.compare (datetime (snd x)) (datetime (snd y)) with
  | Gt => true
  | _ => false
  end.

(** [sorted(items, key=..., reverse=True)]: newest first; the sort is
    stable, so items with equal keys keep their order. *)
Fixpoint insert_sorted (x : string * model_record) (l : metadata) : metadata :=
  match l with
  | [] => [x]
  | y :: l' => if newer y x then y :: insert_sorted x l' else x :: l
  end.

Definition sorted_newest_first (md : metadata) : metadata :=
  fold_right insert_sorted [] md.

(** The position a slice bound [k] denotes in a list of length [n]: a
    negative bound counts from the end. *)
Definition slice_bound (k : Z) (n : nat) : nat :=
  Z.to_nat (if (k <? 0)%Z then Z.max (Z.of_nat n + k) 0 else Z.min k (Z.of_nat n)).

(** [l[:k]] and [l[k:]] *)
Definition slice_to {A : Type} (k : Z) (l : list A) : list A :=
  take (slice_bound k (length l)) l.

Definition slice_from {A : Type} (k : Z) (l : list A) : list A :=
  drop (slice_bound k (length l)) l.

(** [cleanup_old_models(keep_latest=5)] *)
Definition cleanup_old_models (keep_latest : Z) (st : manager) : manager :=
  if (Z.of_nat (length (self_metadata st)) <=? keep_latest)%Z then st
  else
    let sorted_models := sorted_newest_first (self_metadata st) in
    let models_to_keep := slice_to keep_latest sorted_models in
    let models_to_delete := slice_from keep_latest sorted_models in
    let st := fold_left (fun st item => snd (delete_model (fst item) st))
                        models_to_delete st in
    show (Info ("Cleaned up old models. Kept " +:+ pretty (length models_to_keep)
                +:+ " latest models.")) st.

(** The sizes [get_storage_usage] reads from the model directory. *)
Definition sizes (d : gmap string (file model)) : filesystem := st_size <$> d.

End WithJoblib.

(** A stand-in for the library routines, for running the model on concrete
    registries: models are numbers, a pickle has 1 MiB per unit, a negative
    number cannot be pickled. *)
Definition sample_joblib : Joblib :=
  {| model := Z;
     joblib_dump := fun m _ =>
       if (m <? 0)%Z then DumpFailed "cannot pickle" None
       else Dumped (m * 1048576)%Z;
     in_models_dir := fun name => "models/" +:+ name |}.

End Registry.

(* ===================================================================== *)
(** * Part II.  Tables, the object store and the library interface        *)
(* ===================================================================== *)

Module Pandas.

(** ** Floating-point cells

    A float64 cell is a rational, an infinity or NaN (which is also pandas's
    null).  Arithmetic is exact on the finite values; the special values
    follow IEEE 754, with a single unsigned zero. *)
Inductive fval := Fin (q : Q) | PInf | NInf | NaN.

Definition isnull (x : fval) : bool :=
  match x with NaN => true | _ => false end.

Definition fneg (x : fval) : fval :=
  match x with
  | Fin a => Fin (- a)
  | PInf => NInf
  | NInf => PInf
  | NaN => NaN
  end.

Definition fadd (x y : fval) : fval :=
  match x, y with
  | NaN, _ | _, NaN => NaN
  | Fin a, Fin b => Fin (Qred (a + b))
  | PInf, NInf | NInf, PInf => NaN
  | PInf, _ | _, PInf => PInf
  | NInf, _ | _, NInf => NInf
  end.

Definition fsub (x y : fval) : fval := fadd x (fneg y).

(** The sign of a product or quotient with an infinite operand. *)
Definition signed_inf (positive : bool) : fval := if positive then PInf else NInf.

Definition fmul (x y : fval) : fval :=
  match x, y with
  | NaN, _ | _, NaN => NaN
  | Fin a, Fin b => Fin (Qred (a * b))
  | Fin a, PInf | PInf, Fin a =>
      if Qeq_bool a 0 then NaN else signed_inf (Qltb 0 a)
  | Fin a, NInf | NInf, Fin a =>
      if Qeq_bool a 0 then NaN else signed_inf (Qltb a 0)
  | PInf, PInf | NInf, NInf => PInf
  | PInf, NInf | NInf, PInf => NInf
  end.

(** numpy division: [x / 0] is an infinity of the sign of [x], [0 / 0] is NaN. *)
Definition fdiv (x y : fval) : fval :=
  match x, y with
  | NaN, _ | _, NaN => NaN
  | Fin a, Fin b =>
      if Qeq_bool b 0
      then (if Qeq_bool a 0 then NaN else signed_inf (Qltb 0 a))
      else Fin (Qred (a / b))
  | Fin _, (PInf | NInf) => Fin 0
  | PInf, Fin b => signed_inf (Qle_bool 0 b)
  | NInf, Fin b => signed_inf (Qltb b 0)
  | (PInf | NInf), (PInf | NInf) => NaN
  end.

(** [x > y]; every comparison with NaN is false. *)
Definition fgt (x y : fval) : bool :=
  match x, y with
  | Fin a, Fin b => Qltb b a
  | PInf, (Fin _ | NInf) => true
  | Fin _, NInf => true
  | _, _ => false
  end.

Definition flt (x y : fval) : bool := fgt y x.

Definition of_Z (z : Z) : fval := Fin (inject_Z z).
Definition of_bool (b : bool) : fval := if b then Fin 1 else Fin 0.

(** ** Columns and tables *)

(** A timestamp, as far as the code looks into it (the calendar date). *)
Record datetime := mk_datetime { dt_year : Z; dt_month : Z; dt_day : Z }.

(** The Python objects held by a column of dtype [object]. *)
Inductive pyobj := PStr (s : string) | PTimestamp (t : datetime).

(** A Series with its dtype: numeric (int64/float64), object or datetime64.
    [NaN], [None] and [NaT] are the nulls. *)
Inductive column :=
  | NumCol (xs : list fval)
  | ObjCol (xs : list (option pyobj))
  | DateCol (xs : list (option datetime)).

(** A DataFrame: named columns, in order.  The code addresses a column by
    its label; the properties below are stated for tables whose labels are
    distinct. *)
Definition table := list (string * column).

Definition col_length (c : column) : nat :=
  match c with
  | NumCol xs => length xs
  | ObjCol xs => length xs
  | DateCol xs => length xs
  end.

(** [df.shape[0]] *)
Definition nrows (t : table) : nat :=
  match t with
  | [] => 0%nat
  | (_, c) :: _ => col_length c
  end.

(** [df.columns] *)
Definition columns (t : table) : list string := map fst t.

Fixpoint lookup_col (name : string) (t : table) : option column :=
  match t with
  | [] => None
  | (n, c) :: t' => if String.eqb n name then Some c else lookup_col name t'
  end.

(** [df[name] = c]: overwrite the column in place, or append it. *)
Fixpoint set_col (name : string) (c : column) (t : table) : table :=
  match t with
  | [] => [(name, c)]
  | (n, c') :: t' =>
      if String.eqb n name then (n, c) :: t' else (n, c') :: set_col name c t'
  end.

Definition mem (name : string) (names : list string) : bool :=
  existsb (String.eqb name) names.

(** [df.drop(columns=names, errors='ignore')] *)
Definition drop_cols (names : list string) (t : table) : table :=
  List.filter (fun nc => negb (mem (fst nc) names)) t.

Definition is_numeric (c : column) : bool :=
  match c with NumCol _ => true | _ => false end.

(** [dtype == 'object'] *)
Definition is_object (c : column) : bool :=
  match c with ObjCol _ => true | _ => false end.

(** [df.select_dtypes(include=...).columns] *)
Definition select_dtypes (p : column -> bool) (t : table) : list string :=
  map fst (List.filter (fun nc => p (snd nc)) t).

Definition is_none {A : Type} (o : option A) : bool :=
  match o with None => true | Some _ => false end.

(** [series.isnull()] *)
Definition col_isnull (c : column) : list bool :=
  match c with
  | NumCol xs => map isnull xs
  | ObjCol xs => map is_none xs
  | DateCol xs => map is_none xs
  end.

(** [series.isnull().sum() > 0] *)
Definition has_null (c : column) : bool := existsb id (col_isnull c).

(** Keep the cells whose mask bit is set (boolean-mask row selection). *)
Fixpoint keep {A : Type} (mask : list bool) (xs : list A) : list A :=
  match mask, xs with
  | b :: mask', x :: xs' => if b then x :: keep mask' xs' else keep mask' xs'
  | _, _ => []
  end.

Definition col_keep (mask : list bool) (c : column) : column :=
  match c with
  | NumCol xs => NumCol (keep mask xs)
  | ObjCol xs => ObjCol (keep mask xs)
  | DateCol xs => DateCol (keep mask xs)
  end.

Definition keep_rows (mask : list bool) (t : table) : table :=
  map (fun nc => (fst nc, col_keep mask (snd nc))) t.

(** Row by row: no null in any of the given columns. *)
Fixpoint notnull_mask (n : nat) (cols : list column) : list bool :=
  match cols with
  | [] => repeat true n
  | c :: cols' =>
      map (fun p => andb (negb (fst p)) (snd p))
          (combine (col_isnull c) (notnull_mask n cols'))
  end.

(** [df.dropna()] *)
Definition dropna (t : table) : table :=
  keep_rows (notnull_mask (nrows t) (map snd t)) t.

(** The column a scalar broadcasts to, e.g. [fill_value=0] in [reindex]. *)
Definition const_col (n : nat) (x : fval) : column := NumCol (repeat x n).

(** [df.reindex(columns=names, fill_value=0)] *)
Definition reindex (names : list string) (t : table) : table :=
  map (fun name => (name, default (const_col (nrows t) (Fin 0)) (lookup_col name t))) names.

(** ** Series operations used by the feature builder *)

(** [series.shift(-k)]: row [i] receives row [i + k]; the tail is NaN. *)
Definition shift_back (k : nat) (xs : list fval) : list fval :=
  drop k (xs ++ repeat NaN k).

(** [series.shift(1)]: row [i] receives row [i - 1]; the first row is NaN. *)
Definition shift1 (xs : list fval) : list fval :=
  take (length xs) (NaN :: xs).

Definition zip_with_f (f : fval -> fval -> fval) (xs ys : list fval) : list fval :=
  map (fun p => f (fst p) (snd p)) (combine xs ys).

Definition zip_with_b (f : fval -> fval -> bool) (xs ys : list fval) : list bool :=
  map (fun p => f (fst p) (snd p)) (combine xs ys).

(** [series.diff()] *)
Definition diff (xs : list fval) : list fval := zip_with_f fsub xs (shift1 xs).

(** [series.where(cond, other)] with a condition computed from the series. *)
Definition where_ (cond : fval -> bool) (other : fval) (xs : list fval) : list fval :=
  map (fun x => if cond x then x else other) xs.

Definition fsum (xs : list fval) : fval := fold_left fadd xs (Fin 0).

(** The window of [w] rows ending at row [i] (shorter at the start). *)
Definition window (w i : nat) (xs : list fval) : list fval :=
  take (min w (S i)) (drop (S i - w) xs).

(** One cell of [rolling(window=w).mean()]: NaN until [w] rows are
    available and whenever the window holds a null. *)
Definition rolling_mean_at (w : nat) (xs : list fval) (i : nat) : fval :=
  let win := window w i xs in
  if (length win <? w)%nat || existsb isnull win then NaN
  else fdiv (fsum win) (of_Z (Z.of_nat w)).

Definition rolling_mean (w : nat) (xs : list fval) : list fval :=
  map (rolling_mean_at w xs) (seq 0 (length xs)).

(** [series.mean()]: nulls are skipped; NaN when nothing is left. *)
Definition mean (xs : list fval) : fval :=
  let present := List.filter (fun x => negb (isnull x)) xs in
  match present with
  | [] => NaN
  | _ => fdiv (fsum present) (of_Z (Z.of_nat (length present)))
  end.

(** [series.fillna(v)] on a numeric series; filling with NaN changes nothing. *)
Definition fillna_num (v : fval) (xs : list fval) : list fval :=
  map (fun x => if isnull x then v else x) xs.

(** ** Library objects held by the preprocessor *)

(** [sklearn.preprocessing.LabelEncoder]; [classes_] exists once fitted. *)
Record label_encoder := mk_label_encoder { classes_ : option (list string) }.

Inductive scaler_kind := StandardScaler | MinMaxScaler.

(** Fitted attributes of a scaler, one entry per feature: [mean_]/[scale_]
    for the standard scaler, [min_]/[scale_] for the min-max scaler. *)
Record scaler_params := mk_scaler_params { center_ : list fval; scale_ : list fval }.

Record scaler_obj := mk_scaler { sc_kind : scaler_kind; sc_fitted : option scaler_params }.

Inductive score_func := f_classif | f_regression.

(** [sklearn.feature_selection.SelectKBest]; the support mask exists once fitted. *)
Record select_k_best := mk_select_k_best {
  sel_score_func : score_func;
  sel_k : Z;
  sel_support : option (list bool) }.

(** The fields of a [DataPreprocessor] instance. *)
Record preprocessor := mk_preprocessor {
  label_encoders : gmap string label_encoder;
  scaler : option scaler_obj;
  imputer : option unit;
  feature_selector : option select_k_best;
  target_encoder : option label_encoder }.

(** [DataPreprocessor.__init__] *)
Definition new_preprocessor : preprocessor :=
  {| label_encoders := ∅; scaler := None; imputer := None;
     feature_selector := None; target_encoder := None |}.

(** ** Exceptions, the world and the monad of Python statements *)

Inductive exn :=
  | KeyError (key : string)
  | ValueError
  | TypeError
  | IndexError
  | NotFittedError
  | DanglingReference.

Inductive outcome (A : Type) :=
  | Ok (a : A)
  | Raise (e : exn).
Arguments Ok {A} a.
Arguments Raise {A} e.

(** Messages shown through streamlit. *)
Inductive ui_msg :=
  | st_error (text : string)
  | st_info (text : string).

(** DataFrame objects are identified by their position in the store. *)
Definition loc := nat.

Record world := mk_world {
  frames : list table;
  self : preprocessor;
  ui : list ui_msg }.

Definition M (A : Type) : Type := world -> outcome A * world.

Definition ret {A : Type} (a : A) : M A := fun w => (Ok a, w).

Definition bind {A B : Type} (m : M A) (f : A -> M B) : M B :=
  fun w =>
    match m w with
    | (Ok a, w') => f a w'
    | (Raise e, w') => (Raise e, w')
    end.

Definition raise {A : Type} (e : exn) : M A := fun w => (Raise e, w).

(** [try: body  except Exception as e: handler]; the effects of the part of
    [body] that ran are kept. *)
Definition try_except {A : Type} (body : M A) (handler : exn -> M A) : M A :=
  fun w =>
    match body w with
    | (Ok a, w') => (Ok a, w')
    | (Raise e, w') => handler e w'
    end.

Notation "x <- m ;; k" := (bind m (fun x => k))
  (at level 100, m at next level, right associativity).
Notation "m ;;; k" := (bind m (fun _ => k))
  (at level 100, right associativity).

Definition lift {A : Type} (o : outcome A) : M A := fun w => (o, w).

(** [for x in xs: body] *)
Fixpoint for_each {A : Type} (xs : list A) (body : A -> M unit) : M unit :=
  match xs with
  | [] => ret tt
  | x :: xs' => body x ;;; for_each xs' body
  end.

(** A new DataFrame object. *)
Definition alloc (t : table) : M loc :=
  fun w => (Ok (length (frames w)),
            {| frames := frames w ++ [t]; self := self w; ui := ui w |}).

Definition read (l : loc) : M table :=
  fun w =>
    match frames w !! l with
    | Some t => (Ok t, w)
    | None => (Raise DanglingReference, w)
    end.

(** Mutation of the DataFrame object [l] in place. *)
Definition write (l : loc) (t : table) : M unit :=
  fun w => (Ok tt, {| frames := <[l := t]> (frames w); self := self w; ui := ui w |}).

(** [df.copy()] *)
Definition copy (l : loc) : M loc := t <- read l ;; alloc t.

(** [df[name]] *)
Definition getitem (l : loc) (name : string) : M column :=
  t <- read l ;;
  match lookup_col name t with
  | Some c => ret c
  | None => raise (KeyError name)
  end.

(** [df[name] = c] *)
Definition setitem (l : loc) (name : string) (c : column) : M unit :=
  t <- read l ;; write l (set_col name c t).

(** A numeric column as numbers.  The feature builder is modelled on
    numeric price columns; its arithmetic on a column of another dtype is
    taken to raise. *)
Definition as_num (c : column) : M (list fval) :=
  match c with
  | NumCol xs => ret xs
  | _ => raise TypeError
  end.

Definition get_self : M preprocessor := fun w => (Ok (self w), w).

Definition set_self (p : preprocessor) : M unit :=
  fun w => (Ok tt, {| frames := frames w; self := p; ui := ui w |}).

Definition show (m : ui_msg) : M unit :=
  fun w => (Ok tt, {| frames := frames w; self := self w; ui := ui w ++ [m] |}).

(** [df.dropna(subset=[name])], a new table. *)
Definition dropna_subset (name : string) (t : table) : outcome table :=
  match lookup_col name t with
  | Some c => Ok (keep_rows (map negb (col_isnull c)) t)
  | None => Raise (KeyError name)
  end.

(** ** The routines of pandas and scikit-learn that are taken as given *)

Class Externals := {
  (** [series.ewm(span=s).mean()] *)
  ewm_mean : Z -> list fval -> list fval;
  (** [series.rolling(window=w).std()] *)
  rolling_std : nat -> list fval -> list fval;
  (** [series.pct_change()] *)
  pct_change : list fval -> list fval;
  (** [series.median()] *)
  median : list fval -> fval;
  (** [series.mode()[0]]; [None] when [mode()] is empty *)
  mode_num : list fval -> option fval;
  mode_obj : list (option pyobj) -> option pyobj;
  mode_date : list (option datetime) -> option datetime;
  (** [KNNImputer(n_neighbors=5).fit_transform] on one column *)
  knn_impute : list fval -> outcome (list fval);
  (** [pd.get_dummies(series, prefix=name)]: the indicator columns *)
  get_dummies : string -> column -> table;
  (** [pd.to_datetime(series)] *)
  to_datetime : column -> outcome (list (option datetime));
  (** [series.dt.dayofweek] on one timestamp *)
  dayofweek : datetime -> Z;
  (** [str(x)] of a float and of a timestamp, as [astype(str)] applies it *)
  str_of_float : fval -> string;
  str_of_timestamp : datetime -> string;
  (** [scaler.fit] and [scaler.transform] on a matrix given by its columns *)
  scaler_fit : scaler_kind -> list (list fval) -> outcome scaler_params;
  scaler_transform :
    scaler_kind -> scaler_params -> list (list fval) -> outcome (list (list fval));
  (** [SelectKBest(score_func, k).fit(X, y)]: the support mask *)
  select_k_best_fit : score_func -> Z -> table -> column -> outcome (list bool);
  (** [train_test_split(X, y, test_size, random_state=42, stratify)] *)
  train_test_split :
    table -> column -> Q -> option column -> outcome (table * table * column * column) }.

(** Stand-ins for the library routines, for running the model on concrete
    tables.  They are used by the worked examples only; every general
    theorem is stated for an arbitrary instance of [Externals]. *)
Definition sample_externals : Externals :=
  {| ewm_mean := fun _ xs => xs;
     rolling_std := fun _ xs => map (fun _ => NaN) xs;
     pct_change := fun xs => zip_with_f fdiv (diff xs) (shift1 xs);
     median := mean;
     mode_num := fun xs => head (List.filter (fun x => negb (isnull x)) xs);
     mode_obj := fun xs => mjoin (head (List.filter (fun x => negb (is_none x)) xs));
     mode_date := fun xs => mjoin (head (List.filter (fun x => negb (is_none x)) xs));
     knn_impute := fun xs => Ok (fillna_num (mean xs) xs);
     get_dummies := fun _ _ => [];
     to_datetime := fun c => match c with DateCol xs => Ok xs | _ => Raise ValueError end;
     dayofweek := fun _ => 0%Z;
     str_of_float := fun _ => "0.0";
     str_of_timestamp := fun _ => "1970-01-01";
     scaler_fit := fun _ X =>
       Ok {| center_ := map mean X; scale_ := map (fun _ => Fin 1) X |};
     scaler_transform := fun _ p X =>
       Ok (map (fun cx => map (fun x => fsub x (fst cx)) (snd cx)) (combine (center_ p) X));
     select_k_best_fit := fun _ k t _ =>
       Ok (map (fun i => (Z.of_nat i <? k)%Z) (seq 0 (length t)));
     train_test_split := fun X y _ _ => Ok (X, X, y, y) |}.

(** A session that holds the DataFrames [ts] and a freshly constructed
    preprocessor. *)
Definition session (ts : list table) : world :=
  {| frames := ts; self := new_preprocessor; ui := [] |}.

End Pandas.

(* ===================================================================== *)
(** * Part III.  The tabular preprocessor ([src/data_preprocessing.py])   *)
(* ===================================================================== *)

Module Preprocessor.
Import Pandas.

Section WithExternals.
Context `{Externals}.

(** The value passed to [fillna]. *)
Inductive scalar :=
  | SNum (x : fval)
  | SObj (o : pyobj)
  | SDate (t : datetime).

(** [series.fillna(v)].  A string put into a datetime column turns it into
    an object column.  The remaining combinations of dtype and value are
    never requested by [handle_missing_values]. *)
Definition fillna_col (v : scalar) (c : column) : outcome column :=
  match c, v with
  | NumCol xs, SNum x => Ok (NumCol (fillna_num x xs))
  | ObjCol xs, SObj o => Ok (ObjCol (map (fun x => Some (default o x)) xs))
  | DateCol xs, SDate t => Ok (DateCol (map (fun x => Some (default t x)) xs))
  | DateCol xs, SObj o =>
      Ok (ObjCol (map (fun x => Some (from_option PTimestamp o x)) xs))
  | _, _ => Raise TypeError
  end.

(** [df[name].fillna(v, inplace=True)]: the column of the DataFrame object
    itself is updated (pandas without copy-on-write). *)
Definition fillna_inplace (df : loc) (name : string) (v : scalar) : M unit :=
  c <- getitem df name ;;
  c' <- lift (fillna_col v c) ;;
  setitem df name c'.

(** [series.mode()[0]] *)
Definition first_mode (c : column) : M scalar :=
  match c with
  | NumCol xs => from_option (fun x => ret (SNum x)) (raise (KeyError "0")) (mode_num xs)
  | ObjCol xs => from_option (fun o => ret (SObj o)) (raise (KeyError "0")) (mode_obj xs)
  | DateCol xs => from_option (fun t => ret (SDate t)) (raise (KeyError "0")) (mode_date xs)
  end.

(** The body of the loop of [handle_missing_values] for one column name. *)
Definition impute_one (df df_copy : loc) (strategy : string) (col : string) : M unit :=
  c <- getitem df col ;;
  if has_null c then
    match c with
    | NumCol xs =>
        if String.eqb strategy "mean" then
          fillna_inplace df_copy col (SNum (mean xs))
        else if String.eqb strategy "median" then
          fillna_inplace df_copy col (SNum (median xs))
        else if String.eqb strategy "mode" then
          v <- first_mode c ;; fillna_inplace df_copy col v
        else if String.eqb strategy "knn" then
          c' <- getitem df_copy col ;;
          ys <- match c' with NumCol ys => ret ys | _ => raise ValueError end ;;
          zs <- lift (knn_impute ys) ;;
          setitem df_copy col (NumCol zs)
        else ret tt
    | _ =>
        if String.eqb strategy "mode" then
          v <- first_mode c ;; fillna_inplace df_copy col v
        else fillna_inplace df_copy col (SObj (PStr "Unknown"))
    end
  else ret tt.

(** [handle_missing_values(df, strategy='mean', columns=None)] *)
Definition handle_missing_values (df : loc) (strategy : string)
    (cols : option (list string)) : M loc :=
  df_copy <- copy df ;;
  cols <- match cols with
          | Some cs => ret cs
          | None => t <- read df ;; ret (columns t)
          end ;;
  for_each cols (impute_one df df_copy strategy) ;;;
  ret df_copy.

(** [series.astype(str)] *)
Definition astype_str (c : column) : list string :=
  match c with
  | NumCol xs => map str_of_float xs
  | ObjCol xs =>
      map (fun x => match x with
                    | Some (PStr s) => s
                    | Some (PTimestamp t) => str_of_timestamp t
                    | None => "nan"
                    end) xs
  | DateCol xs => map (from_option str_of_timestamp "NaT") xs
  end.

(** Insertion into the sorted list of distinct classes. *)
Fixpoint insert_class (s : string) (classes : list string) : list string :=
  match classes with
  | [] => [s]
  | c :: rest =>
      match String.compare s c with
      | Lt => s :: classes
      | Eq => classes
      | Gt => c :: insert_class s rest
      end
  end.

(** [LabelEncoder.fit]: the sorted distinct labels. *)
Definition le_fit (ys : list string) : list string := fold_right insert_class [] ys.

Fixpoint index_of (s : string) (classes : list string) : option nat :=
  match classes with
  | [] => None
  | c :: rest => if String.eqb c s then Some 0%nat else S <$> index_of s rest
  end.

(** [LabelEncoder.transform]: an unseen label is a [ValueError]. *)
Fixpoint le_transform (classes : list string) (ys : list string) : outcome (list fval) :=
  match ys with
  | [] => Ok []
  | y :: ys' =>
      match index_of y classes, le_transform classes ys' with
      | Some i, Ok codes => Ok (of_Z (Z.of_nat i) :: codes)
      | None, _ => Raise ValueError
      | _, Raise e => Raise e
      end
  end.

(** [encoder.transform(ys)] on a possibly unfitted encoder object. *)
Definition encoder_transform (enc : label_encoder) (ys : list string) : outcome (list fval) :=
  match classes_ enc with
  | Some classes => le_transform classes ys
  | None => Raise NotFittedError
  end.

Definition set_label_encoder (col : string) (enc : label_encoder) : M unit :=
  p <- get_self ;;
  set_self {| label_encoders := <[col := enc]> (label_encoders p);
              scaler := scaler p; imputer := imputer p;
              feature_selector := feature_selector p;
              target_encoder := target_encoder p |}.

(** [for] loop whose body rebinds a local variable. *)
Fixpoint for_fold {A S : Type} (xs : list A) (s : S) (body : S -> A -> M S) : M S :=
  match xs with
  | [] => ret s
  | x :: xs' => s' <- body s x ;; for_fold xs' s' body
  end.

(** The body of the loop of [encode_categorical_variables]; the result is the
    object [df_copy] is bound to afterwards. *)
Definition encode_one (method : string) (df_copy : loc) (col : string) : M loc :=
  if String.eqb method "label" then
    p <- get_self ;;
    match label_encoders p !! col with
    | None =>
        set_label_encoder col (mk_label_encoder None) ;;;
        c <- getitem df_copy col ;;
        let ys := astype_str c in
        let classes := le_fit ys in
        set_label_encoder col (mk_label_encoder (Some classes)) ;;;
        codes <- lift (le_transform classes ys) ;;
        setitem df_copy col (NumCol codes) ;;;
        ret df_copy
    | Some enc =>
        c <- getitem df_copy col ;;
        codes <- lift (encoder_transform enc (astype_str c)) ;;
        setitem df_copy col (NumCol codes) ;;;
        ret df_copy
    end
  else if String.eqb method "onehot" then
    c <- getitem df_copy col ;;
    t <- read df_copy ;;
    alloc (drop_cols [col] t ++ get_dummies col c)
  else ret df_copy.

(** [encode_categorical_variables(df, columns=None, method='label')] *)
Definition encode_categorical_variables (df : loc) (cols : option (list string))
    (method : string) : M loc :=
  df_copy <- copy df ;;
  cols <- match cols with
          | Some cs => ret cs
          | None => t <- read df ;; ret (select_dtypes is_object t)
          end ;;
  for_fold cols df_copy (encode_one method).

(** [df[cols]] handed to scikit-learn: every column must exist and be numeric. *)
Fixpoint get_matrix (df : loc) (cols : list string) : M (list (list fval)) :=
  match cols with
  | [] => ret []
  | col :: cols' =>
      c <- getitem df col ;;
      xs <- match c with NumCol xs => ret xs | _ => raise ValueError end ;;
      rest <- get_matrix df cols' ;;
      ret (xs :: rest)
  end.

(** [df[cols] = matrix] *)
Fixpoint set_matrix (df : loc) (cols : list string) (X : list (list fval)) : M unit :=
  match cols, X with
  | [], [] => ret tt
  | col :: cols', xs :: X' => setitem df col (NumCol xs) ;;; set_matrix df cols' X'
  | _, _ => raise ValueError
  end.

Definition set_scaler (sc : option scaler_obj) : M unit :=
  p <- get_self ;;
  set_self {| label_encoders := label_encoders p;
              scaler := sc; imputer := imputer p;
              feature_selector := feature_selector p;
              target_encoder := target_encoder p |}.

(** The two branches of [scale_features] share this shape: fit a new scaler
    of the requested kind if [self.scaler is None], otherwise apply the one
    that is there. *)
Definition scale_with (kind : scaler_kind) (df_copy : loc) (cols : list string) : M unit :=
  p <- get_self ;;
  match scaler p with
  | None =>
      set_scaler (Some (mk_scaler kind None)) ;;;
      X <- get_matrix df_copy cols ;;
      params <- lift (scaler_fit kind X) ;;
      set_scaler (Some (mk_scaler kind (Some params))) ;;;
      X' <- lift (scaler_transform kind params X) ;;
      set_matrix df_copy cols X'
  | Some sc =>
      X <- get_matrix df_copy cols ;;
      match sc_fitted sc with
      | Some params =>
          X' <- lift (scaler_transform (sc_kind sc) params X) ;;
          set_matrix df_copy cols X'
      | None => raise NotFittedError
      end
  end.

(** [scale_features(df, columns=None, method='standard')] *)
Definition scale_features (df : loc) (cols : option (list string))
    (method : string) : M loc :=
  df_copy <- copy df ;;
  cols <- match cols with
          | Some cs => ret cs
          | None => t <- read df ;; ret (select_dtypes is_numeric t)
          end ;;
  (if String.eqb method "standard" then scale_with StandardScaler df_copy cols
   else if String.eqb method "minmax" then scale_with MinMaxScaler df_copy cols
   else ret tt) ;;;
  ret df_copy.

Definition set_feature_selector (sel : option select_k_best) : M unit :=
  p <- get_self ;;
  set_self {| label_encoders := label_encoders p;
              scaler := scaler p; imputer := imputer p;
              feature_selector := sel;
              target_encoder := target_encoder p |}.

Definition set_target_encoder (enc : option label_encoder) : M unit :=
  p <- get_self ;;
  set_self {| label_encoders := label_encoders p;
              scaler := scaler p; imputer := imputer p;
              feature_selector := feature_selector p;
              target_encoder := enc |}.

(** The matrix scikit-learn sees for a whole DataFrame. *)
Definition matrix_of (t : table) : outcome (list (list fval)) :=
  fold_right (fun nc acc =>
                match snd nc, acc with
                | NumCol xs, Ok rest => Ok (xs :: rest)
                | _, Raise e => Raise e
                | _, _ => Raise ValueError
                end) (Ok []) t.

(** [selector.transform(X)]: the columns of the support mask; the number of
    features must be the one seen when fitting. *)
Definition selector_transform (sel : select_k_best) (t : table)
  : outcome (list (list fval)) :=
  match sel_support sel with
  | None => Raise NotFittedError
  | Some mask =>
      match matrix_of t with
      | Ok X => if (length X =? length mask)%nat then Ok (keep mask X) else Raise ValueError
      | Raise e => Raise e
      end
  end.

(** [X.columns[selector.get_support()]] *)
Definition selected_columns (sel : select_k_best) (t : table) : outcome (list string) :=
  match sel_support sel with
  | None => Raise NotFittedError
  | Some mask =>
      if (length t =? length mask)%nat then Ok (keep mask (columns t))
      else Raise IndexError
  end.

(** [pd.DataFrame(data, columns=names)] *)
Definition dataframe_of (X : list (list fval)) (names : list string) : outcome table :=
  if (length X =? length names)%nat
  then Ok (combine names (map NumCol X))
  else Raise ValueError.

(** [select_features(X, y, k=10, task_type='classification')] *)
Definition select_features (X : loc) (y : column) (k : Z) (task_type : string)
  : M (loc * list string) :=
  let score := if String.eqb task_type "classification" then f_classif else f_regression in
  p <- get_self ;;
  t <- read X ;;
  X_selected <-
    match feature_selector p with
    | None =>
        set_feature_selector (Some (mk_select_k_best score k None)) ;;;
        mask <- lift (select_k_best_fit score k t y) ;;
        set_feature_selector (Some (mk_select_k_best score k (Some mask))) ;;;
        lift (selector_transform (mk_select_k_best score k (Some mask)) t)
    | Some sel => lift (selector_transform sel t)
    end ;;
  p <- get_self ;;
  selected_features <-
    match feature_selector p with
    | Some sel => lift (selected_columns sel t)
    | None => raise NotFittedError
    end ;;
  t' <- lift (dataframe_of X_selected selected_features) ;;
  df <- alloc t' ;;
  ret (df, selected_features).

(** [', '.join(names)] *)
Definition join_names (names : list string) : string := String.concat ", " names.

(** [target_encoder.fit_transform(y)] and [.transform(y)] on an object
    column: the labels must all be strings. *)
Fixpoint labels_of (xs : list (option pyobj)) : outcome (list string) :=
  match xs with
  | [] => Ok []
  | Some (PStr s) :: xs' =>
      match labels_of xs' with
      | Ok ss => Ok (s :: ss)
      | Raise e => Raise e
      end
  | _ :: _ => Raise TypeError
  end.

Definition encode_target (xs : list (option pyobj)) : M column :=
  p <- get_self ;;
  match target_encoder p with
  | None =>
      set_target_encoder (Some (mk_label_encoder None)) ;;;
      ys <- lift (labels_of xs) ;;
      let classes := le_fit ys in
      set_target_encoder (Some (mk_label_encoder (Some classes))) ;;;
      codes <- lift (le_transform classes ys) ;;
      ret (NumCol codes)
  | Some enc =>
      ys <- lift (labels_of xs) ;;
      codes <- lift (encoder_transform enc ys) ;;
      ret (NumCol codes)
  end.

(** The first half of [preprocess_pipeline]: everything up to and including
    scaling.  It yields the feature table [X] and the target [y]. *)
Definition pipeline_features (df : loc) (target_column : string)
    (missing_strategy encoding_method scaling_method task_type : string)
  : M (loc * column) :=
  t <- read df ;;
  X <- (if mem target_column (columns t)
        then alloc (drop_cols [target_column] t)
        else raise (KeyError target_column)) ;;
  y <- getitem df target_column ;;
  X <- handle_missing_values X missing_strategy None ;;
  tX <- read X ;;
  let categorical_cols := select_dtypes is_object tX in
  X <- (match categorical_cols with
        | [] => ret X
        | _ => encode_categorical_variables X (Some categorical_cols) encoding_method
        end) ;;
  y <- (match y with
        | ObjCol xs =>
            if String.eqb task_type "classification" then encode_target xs else ret y
        | _ => ret y
        end) ;;
  tX <- read X ;;
  let numeric_cols := select_dtypes is_numeric tX in
  X <- (match numeric_cols with
        | [] => ret X
        | _ => scale_features X (Some numeric_cols) scaling_method
        end) ;;
  ret (X, y).

(** The second half: optional feature selection, then the split. *)
Definition pipeline_select_split (X : loc) (y : column) (test_size : Q)
    (feature_selection_k : option Z) (task_type : string)
  : M (table * table * column * column * list string) :=
  tX <- read X ;;
  X <- (match feature_selection_k with
        | Some k =>
            if negb (k =? 0)%Z && (k <? Z.of_nat (length tX))%Z then
              r <- select_features X y k task_type ;;
              show (st_info ("Selected features: " +:+ join_names (snd r))) ;;;
              ret (fst r)
            else ret X
        | None => ret X
        end) ;;
  tX <- read X ;;
  parts <- lift (train_test_split tX y test_size
                   (if String.eqb task_type "classification" then Some y else None)) ;;
  let '(X_train, X_test, y_train, y_test) := parts in
  ret (X_train, X_test, y_train, y_test, columns tX).

(** [preprocess_pipeline(df, target_column, test_size=0.2,
    missing_strategy='mean', encoding_method='label',
    scaling_method='standard', feature_selection_k=None,
    task_type='classification')] *)
Definition preprocess_pipeline (df : loc) (target_column : string) (test_size : Q)
    (missing_strategy encoding_method scaling_method : string)
    (feature_selection_k : option Z) (task_type : string)
  : M (table * table * column * column * list string) :=
  Xy <- pipeline_features df target_column missing_strategy encoding_method
          scaling_method task_type ;;
  pipeline_select_split (fst Xy) (snd Xy) test_size feature_selection_k task_type.

(** [transform_new_data(df, feature_columns)] *)
Definition transform_new_data (df : loc) (feature_columns : list string) : M loc :=
  df_copy <- copy df ;;
  df_copy <- handle_missing_values df_copy "mean" None ;;
  t <- read df_copy ;;
  let categorical_cols := select_dtypes is_object t in
  df_copy <- (match categorical_cols with
              | [] => ret df_copy
              | _ => encode_categorical_variables df_copy (Some categorical_cols) "label"
              end) ;;
  t <- read df_copy ;;
  let numeric_cols := select_dtypes is_numeric t in
  p <- get_self ;;
  df_copy <- (match numeric_cols, scaler p with
              | _ :: _, Some _ => scale_features df_copy (Some numeric_cols) "standard"
              | _, _ => ret df_copy
              end) ;;
  p <- get_self ;;
  df_copy <- (match feature_selector p with
              | Some sel =>
                  t <- read df_copy ;;
                  X <- lift (selector_transform sel t) ;;
                  t' <- lift (dataframe_of X feature_columns) ;;
                  alloc t'
              | None => ret df_copy
              end) ;;
  t <- read df_copy ;;
  alloc (reindex feature_columns t).

End WithExternals.
End Preprocessor.

(* ===================================================================== *)
(** * Part IV.  The financial feature builder ([src/financial_data.py])   *)
(* ===================================================================== *)

Module Financial.
Import Pandas.

Section WithExternals.
Context `{Externals}.

(** [df[name]] used as a numeric series. *)
Definition num (df : loc) (name : string) : M (list fval) :=
  c <- getitem df name ;; as_num c.

(** [df[name] = series] for a numeric series. *)
Definition assign (df : loc) (name : string) (xs : list fval) : M unit :=
  setitem df name (NumCol xs).

(** [series * k], [series / k] and [k op series] with a scalar. *)
Definition scale_by (k : fval) (xs : list fval) : list fval := map (fun x => fmul x k) xs.

(** The RSI column computed from the closing prices:
<<
  delta = close.diff()
  gain = (delta.where(delta > 0, 0)).rolling(window=14).mean()
  loss = (-delta.where(delta < 0, 0)).rolling(window=14).mean()
  rs = gain / loss
  rsi = 100 - (100 / (1 + rs))
>> *)
Definition rsi (close : list fval) : list fval :=
  let delta := diff close in
  let gain := rolling_mean 14 (where_ (fun d => fgt d (Fin 0)) (Fin 0) delta) in
  let loss := rolling_mean 14 (map fneg (where_ (fun d => flt d (Fin 0)) (Fin 0) delta)) in
  let rs := zip_with_f fdiv gain loss in
  map (fun r => fsub (Fin 100) (fdiv (Fin 100) (fadd (Fin 1) r))) rs.

(** The statements of [add_technical_indicators] after [df = data.copy()]. *)
Definition indicator_columns (df : loc) : M unit :=
  c <- num df "Close" ;; assign df "SMA_20" (rolling_mean 20 c) ;;;
  c <- num df "Close" ;; assign df "SMA_50" (rolling_mean 50 c) ;;;
  c <- num df "Close" ;; assign df "SMA_200" (rolling_mean 200 c) ;;;
  c <- num df "Close" ;; assign df "EMA_12" (ewm_mean 12 c) ;;;
  c <- num df "Close" ;; assign df "EMA_26" (ewm_mean 26 c) ;;;
  a <- num df "EMA_12" ;; b <- num df "EMA_26" ;;
  assign df "MACD" (zip_with_f fsub a b) ;;;
  m <- num df "MACD" ;; assign df "MACD_Signal" (ewm_mean 9 m) ;;;
  m <- num df "MACD" ;; s <- num df "MACD_Signal" ;;
  assign df "MACD_Histogram" (zip_with_f fsub m s) ;;;
  c <- num df "Close" ;; assign df "RSI" (rsi c) ;;;
  c <- num df "Close" ;; assign df "BB_Middle" (rolling_mean 20 c) ;;;
  c <- num df "Close" ;;
  let bb_std := rolling_std 20 c in
  mid <- num df "BB_Middle" ;;
  assign df "BB_Upper" (zip_with_f fadd mid (scale_by (Fin 2) bb_std)) ;;;
  mid <- num df "BB_Middle" ;;
  assign df "BB_Lower" (zip_with_f fsub mid (scale_by (Fin 2) bb_std)) ;;;
  v <- num df "Volume" ;; assign df "Volume_SMA" (rolling_mean 20 v) ;;;
  v <- num df "Volume" ;; vs <- num df "Volume_SMA" ;;
  assign df "Volume_Ratio" (zip_with_f fdiv v vs) ;;;
  c <- num df "Close" ;; assign df "Daily_Return" (pct_change c) ;;;
  c <- num df "Close" ;; assign df "Price_Change" (diff c) ;;;
  c <- num df "Close" ;; o <- num df "Open" ;; o' <- num df "Open" ;;
  assign df "Price_Change_Pct"
    (scale_by (Fin 100) (zip_with_f fdiv (zip_with_f fsub c o) o')) ;;;
  r <- num df "Daily_Return" ;; assign df "Volatility" (rolling_std 20 r) ;;;
  h <- num df "High" ;; l <- num df "Low" ;;
  assign df "HL_Spread" (zip_with_f fsub h l) ;;;
  h <- num df "High" ;; l <- num df "Low" ;; c <- num df "Close" ;;
  assign df "HL_Spread_Pct"
    (scale_by (Fin 100) (zip_with_f fdiv (zip_with_f fsub h l) c)).

(** [add_technical_indicators(data)]: on any exception the error is shown
    and [data] itself is returned. *)
Definition add_technical_indicators (data : loc) : M loc :=
  try_except
    (df <- copy data ;;
     indicator_columns df ;;;
     ret df)
    (fun _ =>
       show (st_error "Error adding technical indicators") ;;;
       ret data).

(** [np.where(c1, 1, np.where(c2, -1, 0))] *)
Definition three_way (c1 c2 : bool) : fval :=
  if c1 then Fin 1 else if c2 then Fin (-1) else Fin 0.

(** [df.dropna(subset=['Target'])] bound to a new DataFrame object. *)
Definition drop_missing_target (df : loc) : M loc :=
  t <- read df ;;
  t' <- lift (dropna_subset "Target" t) ;;
  alloc t'.

(** [create_classification_target(data, method='price_direction', periods=1)] *)
Definition create_classification_target (data : loc) (method : string) (periods : nat)
  : M loc :=
  try_except
    (df <- copy data ;;
     df <-
       (if String.eqb method "price_direction" then
          a <- num df "Close" ;; b <- num df "Close" ;;
          assign df "Target" (map of_bool (zip_with_b fgt (shift_back periods a) b)) ;;;
          ret df
        else if String.eqb method "price_movement" then
          let threshold := Fin (1 # 100) in
          a <- num df "Close" ;; b <- num df "Close" ;; c <- num df "Close" ;;
          let future_return :=
            zip_with_f fdiv (zip_with_f fsub (shift_back periods a) b) c in
          assign df "Target"
            (map (fun r => three_way (fgt r threshold) (flt r (fneg threshold)))
                 future_return) ;;;
          ret df
        else if String.eqb method "volatility_breakout" then
          df <- add_technical_indicators df ;;
          h <- num df "High" ;;
          let future_high := shift_back periods h in
          l <- num df "Low" ;;
          let future_low := shift_back periods l in
          up <- num df "BB_Upper" ;;
          let breakout_up := zip_with_b fgt future_high up in
          lo <- num df "BB_Lower" ;;
          let breakout_down := zip_with_b flt future_low lo in
          assign df "Target"
            (map (fun p => three_way (fst p) (snd p)) (combine breakout_up breakout_down)) ;;;
          ret df
        else ret df) ;;
     drop_missing_target df)
    (fun _ =>
       show (st_error "Error creating classification target") ;;;
       ret data).

(** [create_regression_target(data, target_type='next_close', periods=1)] *)
Definition create_regression_target (data : loc) (target_type : string) (periods : nat)
  : M loc :=
  try_except
    (df <- copy data ;;
     (if String.eqb target_type "next_close" then
        a <- num df "Close" ;;
        assign df "Target" (shift_back periods a)
      else if String.eqb target_type "return" then
        a <- num df "Close" ;; b <- num df "Close" ;; c <- num df "Close" ;;
        assign df "Target"
          (scale_by (Fin 100)
             (zip_with_f fdiv (zip_with_f fsub (shift_back periods a) b) c))
      else if String.eqb target_type "volatility" then
        a <- num df "Close" ;;
        assign df "Target" (shift_back periods (rolling_std periods a))
      else ret tt) ;;;
     drop_missing_target df)
    (fun _ =>
       show (st_error "Error creating regression target") ;;;
       ret data).

(** One calendar feature: [pd.to_datetime(df['Date']).dt.<field>]. *)
Definition calendar_feature (df : loc) (field : datetime -> Z) : M (list fval) :=
  c <- getitem df "Date" ;;
  ts <- lift (to_datetime c) ;;
  ret (map (from_option (fun t => of_Z (field t)) NaN) ts).

(** [series.dt.quarter] on one timestamp. *)
Definition quarter (t : datetime) : Z := ((dt_month t - 1) / 3 + 1)%Z.

(** The names [prepare_ml_dataset] collects in its loop over [df.columns]. *)
Definition object_columns_but_target (t : table) : list string :=
  map fst (List.filter (fun nc => is_object (snd nc) && negb (String.eqb (fst nc) "Target")) t).

(** [prepare_ml_dataset(data, task_type='classification',
    target_method='price_direction', periods=1,
    include_technical_indicators=True)] *)
Definition prepare_ml_dataset (data : loc) (task_type target_method : string)
    (periods : nat) (include_technical_indicators : bool) : M loc :=
  try_except
    (df <- copy data ;;
     df <- (if include_technical_indicators then add_technical_indicators df else ret df) ;;
     df <- (if String.eqb task_type "classification"
            then create_classification_target df target_method periods
            else create_regression_target df target_method periods) ;;
     t <- read df ;;
     columns_to_drop <-
       (if mem "Date" (columns t) then
          y <- calendar_feature df dt_year ;; assign df "Year" y ;;;
          m <- calendar_feature df dt_month ;; assign df "Month" m ;;;
          d <- calendar_feature df dayofweek ;; assign df "DayOfWeek" d ;;;
          q <- calendar_feature df quarter ;; assign df "Quarter" q ;;;
          ret ["Date"]
        else ret []) ;;
     t <- read df ;;
     let columns_to_drop := columns_to_drop ++ object_columns_but_target t in
     df <- alloc (drop_cols columns_to_drop t) ;;
     t <- read df ;;
     alloc (dropna t))
    (fun _ =>
       show (st_error "Error preparing ML dataset") ;;;
       ret data).

End WithExternals.
End Financial.

(* ===================================================================== *)
(** * Part V.  Properties                                                 *)
(* ===================================================================== *)

Import Pandas.

(** ** Running the code: stores, tables, and the frame rule *)

(** ** Running monadic code *)

Lemma bind_ok {A B : Type} (m : M A) (f : A -> M B) (w w' : world) (a : A) :
  m w = (Ok a, w') -> bind m f w = f a w'.
Proof. intros Hm. unfold bind. by rewrite Hm. Qed.

Lemma bind_raise {A B : Type} (m : M A) (f : A -> M B) (w w' : world) (e : exn) :
  m w = (Raise e, w') -> bind m f w = (Raise e, w').
Proof. intros Hm. unfold bind. by rewrite Hm. Qed.

(** The world after the DataFrame object [l] has been mutated into [t]. *)
Definition upd (l : loc) (t : table) (w : world) : world :=
  {| frames := <[l := t]> (frames w); self := self w; ui := ui w |}.

Lemma read_ok (w : world) (l : loc) (t : table) :
  frames w !! l = Some t -> read l w = (Ok t, w).
Proof. intros Hl. unfold read. by rewrite Hl. Qed.

Lemma getitem_ok (w : world) (l : loc) (t : table) (name : string) (c : column) :
  frames w !! l = Some t -> lookup_col name t = Some c ->
  getitem l name w = (Ok c, w).
Proof.
  intros Hl Hc. unfold getitem. rewrite (bind_ok _ _ _ _ _ (read_ok _ _ _ Hl)).
  by rewrite Hc.
Qed.

Lemma getitem_missing (w : world) (l : loc) (t : table) (name : string) :
  frames w !! l = Some t -> lookup_col name t = None ->
  getitem l name w = (Raise (KeyError name), w).
Proof.
  intros Hl Hc. unfold getitem. rewrite (bind_ok _ _ _ _ _ (read_ok _ _ _ Hl)).
  by rewrite Hc.
Qed.

Lemma setitem_ok (w : world) (l : loc) (t : table) (name : string) (c : column) :
  frames w !! l = Some t ->
  setitem l name c w = (Ok tt, upd l (set_col name c t) w).
Proof.
  intros Hl. unfold setitem. by rewrite (bind_ok _ _ _ _ _ (read_ok _ _ _ Hl)).
Qed.

Lemma copy_ok (w : world) (l : loc) (t : table) :
  frames w !! l = Some t ->
  copy l w = (Ok (length (frames w)),
              {| frames := frames w ++ [t]; self := self w; ui := ui w |}).
Proof.
  intros Hl. unfold copy. by rewrite (bind_ok _ _ _ _ _ (read_ok _ _ _ Hl)).
Qed.

Lemma frames_upd_eq (w : world) (l : loc) (t : table) :
  (l < length (frames w))%nat -> frames (upd l t w) !! l = Some t.
Proof. intros Hl. simpl. by apply list_lookup_insert_eq. Qed.

Lemma frames_upd_ne (w : world) (l l' : loc) (t : table) :
  l <> l' -> frames (upd l t w) !! l' = frames w !! l'.
Proof. intros Hl. simpl. by apply list_lookup_insert_ne. Qed.

Lemma upd_upd (w : world) (l : loc) (t1 t2 : table) :
  upd l t2 (upd l t1 w) = upd l t2 w.
Proof. unfold upd. simpl. by rewrite list_insert_insert_eq. Qed.

(** ** Tables *)

Lemma lookup_set_col (name name' : string) (c : column) (t : table) :
  lookup_col name' (set_col name c t) =
  if String.eqb name name' then Some c else lookup_col name' t.
Proof.
  induction t as [|[n c'] t IH]; simpl.
  - by destruct (String.eqb name name').
  - destruct (String.eqb_spec n name) as [->|Hn]; simpl.
    + by destruct (String.eqb name name').
    + destruct (String.eqb_spec n name') as [->|Hn'].
      * destruct (String.eqb_spec name name'); congruence.
      * apply IH.
Qed.

Lemma upd_id (w : world) (l : loc) (t : table) :
  frames w !! l = Some t -> upd l t w = w.
Proof.
  intros Hl. destruct w as [fs p u]. unfold upd. simpl in *.
  by rewrite list_insert_id.
Qed.

Lemma set_col_same (name : string) (c : column) (t : table) :
  lookup_col name t = Some c -> set_col name c t = t.
Proof.
  induction t as [|[n c'] t IH]; simpl; [discriminate|].
  destruct (String.eqb n name); [by intros [= ->]|].
  intros Hc. by rewrite IH.
Qed.

Lemma columns_set_col (name : string) (c c' : column) (t : table) :
  lookup_col name t = Some c' -> columns (set_col name c t) = columns t.
Proof.
  induction t as [|[n c0] t IH]; simpl; [discriminate|].
  destruct (String.eqb n name); simpl; [done|].
  intros Hc. f_equal. by apply IH.
Qed.

Lemma lookup_col_Some_In (name : string) (c : column) (t : table) :
  lookup_col name t = Some c -> In name (columns t).
Proof.
  induction t as [|[n c0] t IH]; simpl; [discriminate|].
  destruct (String.eqb_spec n name) as [->|Hn]; [by left|].
  intros Hc. right. by apply IH.
Qed.

Lemma lookup_col_not_In (name : string) (t : table) :
  ~ In name (columns t) -> lookup_col name t = None.
Proof.
  induction t as [|[n c0] t IH]; simpl; [done|].
  intros Hn. destruct (String.eqb_spec n name) as [->|Hne]; [tauto|].
  apply IH. tauto.
Qed.

Lemma lookup_col_In (name : string) (t : table) :
  In name (columns t) -> exists c, lookup_col name t = Some c.
Proof.
  intros Hin. destruct (lookup_col name t) as [c|] eqn:E; [eauto|].
  exfalso. revert Hin E. induction t as [|[n c0] t IH]; simpl; [done|].
  destruct (String.eqb_spec n name) as [->|Hn]; [done|].
  intros [?|?] ?; [done|auto].
Qed.

(** ** The frame rule: code that only writes to objects it allocated *)

(** [m] leaves the first [n] objects of the store as they are, and every
    value it returns satisfies [Q]. *)
Definition preserves {A : Type} (n : nat) (m : M A) (Q : A -> Prop) : Prop :=
  forall w, (n <= length (frames w))%nat ->
    take n (frames (snd (m w))) = take n (frames w) /\
    (n <= length (frames (snd (m w))))%nat /\
    (forall a, fst (m w) = Ok a -> Q a).

Lemma preserves_weaken {A : Type} (n : nat) (m : M A) (Q Q' : A -> Prop) :
  preserves n m Q -> (forall a, Q a -> Q' a) -> preserves n m Q'.
Proof.
  intros Hm HQ w Hw. destruct (Hm w Hw) as (? & ? & ?). eauto.
Qed.

Lemma preserves_ret {A : Type} (n : nat) (a : A) (Q : A -> Prop) :
  Q a -> preserves n (ret a) Q.
Proof. intros HQ w Hw. simpl. repeat split; auto. by intros ? [= <-]. Qed.

Lemma preserves_raise {A : Type} (n : nat) (e : exn) (Q : A -> Prop) :
  preserves n (raise e) Q.
Proof. intros w Hw. simpl. repeat split; auto. discriminate. Qed.

Lemma preserves_lift {A : Type} (n : nat) (o : outcome A) :
  preserves n (lift o) (fun _ => True).
Proof. intros w Hw. simpl. repeat split; auto. Qed.

Lemma preserves_bind {A B : Type} (n : nat) (m : M A) (f : A -> M B)
    (Q : A -> Prop) (R : B -> Prop) :
  preserves n m Q -> (forall a, Q a -> preserves n (f a) R) ->
  preserves n (bind m f) R.
Proof.
  intros Hm Hf w Hw. destruct (Hm w Hw) as (Ht & Hlen & HQ).
  unfold bind. destruct (m w) as [[a|e] w']; simpl in *.
  - destruct (Hf a (HQ a eq_refl) w' Hlen) as (Ht' & Hlen' & HR).
    repeat split; auto. congruence.
  - repeat split; auto. discriminate.
Qed.

Lemma preserves_try {A : Type} (n : nat) (body : M A) (handler : exn -> M A)
    (Q : A -> Prop) :
  preserves n body Q -> (forall e, preserves n (handler e) Q) ->
  preserves n (try_except body handler) Q.
Proof.
  intros Hm Hh w Hw. destruct (Hm w Hw) as (Ht & Hlen & HQ).
  unfold try_except. destruct (body w) as [[a|e] w']; simpl in *.
  - repeat split; auto.
  - destruct (Hh e w' Hlen) as (Ht' & Hlen' & HR).
    repeat split; auto. congruence.
Qed.

Lemma preserves_read (n : nat) (l : loc) : preserves n (read l) (fun _ => True).
Proof.
  intros w Hw. unfold read. destruct (frames w !! l); simpl; repeat split; auto.
Qed.

Lemma preserves_alloc (n : nat) (t : table) :
  preserves n (alloc t) (fun l => (n <= l)%nat).
Proof.
  intros w Hw. unfold alloc. simpl. repeat split.
  - by rewrite take_app_le.
  - rewrite length_app. lia.
  - intros a [= <-]. done.
Qed.

Lemma preserves_write (n : nat) (l : loc) (t : table) :
  (n <= l)%nat -> preserves n (write l t) (fun _ => True).
Proof.
  intros Hl w Hw. unfold write. simpl. repeat split.
  - by rewrite take_insert_ge.
  - by rewrite length_insert.
Qed.

Lemma preserves_get_self (n : nat) : preserves n get_self (fun _ => True).
Proof. intros w Hw. simpl. repeat split; auto. Qed.

Lemma preserves_set_self (n : nat) (p : preprocessor) :
  preserves n (set_self p) (fun _ => True).
Proof. intros w Hw. simpl. repeat split; auto. Qed.

Lemma preserves_show (n : nat) (m : ui_msg) : preserves n (show m) (fun _ => True).
Proof. intros w Hw. simpl. repeat split; auto. Qed.

Lemma preserves_copy (n : nat) (l : loc) :
  preserves n (copy l) (fun l' => (n <= l')%nat).
Proof.
  unfold copy. eapply preserves_bind; [apply preserves_read|].
  intros t _. apply preserves_alloc.
Qed.

Lemma preserves_getitem (n : nat) (l : loc) (name : string) :
  preserves n (getitem l name) (fun _ => True).
Proof.
  unfold getitem. eapply preserves_bind; [apply preserves_read|].
  intros t _. destruct (lookup_col name t).
  - by apply preserves_ret.
  - apply preserves_raise.
Qed.

Lemma preserves_setitem (n : nat) (l : loc) (name : string) (c : column) :
  (n <= l)%nat -> preserves n (setitem l name c) (fun _ => True).
Proof.
  intros Hl. unfold setitem. eapply preserves_bind; [apply preserves_read|].
  intros t _. by apply preserves_write.
Qed.

Lemma preserves_as_num (n : nat) (c : column) : preserves n (as_num c) (fun _ => True).
Proof. destruct c; simpl; first [by apply preserves_ret | apply preserves_raise]. Qed.

Lemma preserves_for_each {A : Type} (n : nat) (xs : list A) (body : A -> M unit) :
  (forall x, preserves n (body x) (fun _ => True)) ->
  preserves n (for_each xs body) (fun _ => True).
Proof.
  intros Hbody. induction xs as [|x xs IH]; simpl.
  - by apply preserves_ret.
  - eapply preserves_bind; [apply Hbody|]. intros _ _. apply IH.
Qed.

(** ** The model registry *)

Section RegistryFacts.
Import Registry.













Definition rec_of (ty path : string) (metrics : list (string * Q)) : model_record :=
  mk_record "m" ty "20240101_000000" "2024-01-01T00:00:00" path
            (list_to_map metrics) None None 0.

Definition rmse_registry : metadata :=
  [("a_1", rec_of "regression" "models/a_1.pkl" [("RMSE", 1 # 2)]);
   ("b_2", rec_of "regression" "models/b_2.pkl" [("RMSE", 1 # 5)]);
   ("c_3", rec_of "regression" "models/c_3.pkl" [("RMSE", 9 # 10)]);
   ("d_4", rec_of "classification" "models/d_4.pkl" [("Accuracy", 4 # 5)]);
   ("e_5", rec_of "classification" "models/e_5.pkl" [("Accuracy", 19 # 20)]);
   ("f_6", rec_of "classification" "models/f_6.pkl" [("Accuracy", 7 # 10)])].

Example best_rmse_example :
  get_best_model rmse_registry "RMSE" "regression" = Some ("b_2", 1 # 5).
Proof. vm_compute. reflexivity. Qed.

Example best_accuracy_example :
  get_best_model rmse_registry "Accuracy" "classification" = Some ("e_5", 19 # 20).
Proof. vm_compute. reflexivity. Qed.

Example best_lowercase_rmse_example :
  get_best_model rmse_registry "rmse" "regression" = None /\
  lower_is_better "rmse" = true.
Proof. vm_compute. split; reflexivity. Qed.

(** The ids [save_model] makes are never empty. *)
Lemma new_model_id_nonempty (model_name timestamp : string) :
  new_model_id model_name timestamp <> "".
Proof. unfold new_model_id. by destruct model_name. Qed.


Lemma usage_fold fs md : forall total count,
  fold_left (usage_step fs) md (total, count) =
  ((total + sumZ (map (size_on_disk fs) (existing fs md)))%Z,
   (count + Z.of_nat (length (existing fs md)))%Z).
Proof.
  induction md as [|entry md IH]; intros total count.
  - simpl. f_equal; lia.
  - cbn [fold_left]. unfold existing. cbn [List.filter]. fold (existing fs md).
    unfold usage_step at 2.
    destruct (fs !! model_path (snd entry)) as [size|] eqn:Hfs.
    + rewrite bool_decide_eq_true_2 by eauto. rewrite IH.
      cbn [map length sumZ fold_right].
      fold (sumZ (map (size_on_disk fs) (existing fs md))).
      assert (Hsz : size_on_disk fs entry = size) by (unfold size_on_disk; by rewrite Hfs).
      rewrite Hsz. f_equal; lia.
    + rewrite bool_decide_eq_false_2 by (intros [? ?]; congruence). apply IH.
Qed.

Lemma existing_length fs md : (length (existing fs md) <= length md)%nat.
Proof.
  unfold existing. induction md as [|entry md IH]; simpl; [lia|].
  destruct (bool_decide _); simpl; lia.
Qed.

Lemma pydiv_nonzero a b : ~ b == 0 -> pydiv a b = Some (Qred (a / b)).
Proof.
  intros Hb. unfold pydiv. destruct (Qeq_bool b 0) eqn:E; [|reflexivity].
  apply Qeq_bool_eq in E. contradiction.
Qed.

(** C10.  [get_storage_usage] always returns a result: the count and the
    total size range over the entries whose file exists, so the count is at
    most the number of entries; the average divides by [max count 1], never
    by zero; and when no file exists the result is all zeros. *)
Theorem get_storage_usage_spec (fs : filesystem) (md : metadata) :
  let files := existing fs md in
  let total := sumZ (map (size_on_disk fs) files) in
  let count := Z.of_nat (length files) in
  let mb := Qred (inject_Z total / (1024 * 1024)) in
  get_storage_usage fs md =
    Some {| total_size_mb := round2 mb;
            model_count := count;
            avg_size_mb := round2 (Qred (mb / inject_Z (Z.max count 1))) |}
  /\ (count <= Z.of_nat (length md))%Z
  /\ (files = [] ->
      get_storage_usage fs md =
        Some {| total_size_mb := 0; model_count := 0; avg_size_mb := 0 |}).
Proof.
  intros files total count mb.
  assert (Hrun : get_storage_usage fs md =
    Some {| total_size_mb := round2 mb; model_count := count;
            avg_size_mb := round2 (Qred (mb / inject_Z (Z.max count 1))) |}).
  { unfold get_storage_usage. rewrite usage_fold.
    rewrite !Z.add_0_l. fold files. fold total. fold count.
    assert (Hmb : pydiv (inject_Z total) (1024 * 1024) = Some mb).
    { apply pydiv_nonzero. intros H. vm_compute in H. discriminate. }
    assert (Havg : pydiv mb (inject_Z (Z.max count 1)) =
                   Some (Qred (mb / inject_Z (Z.max count 1)))).
    { apply pydiv_nonzero. unfold Qeq. simpl. lia. }
    rewrite Hmb. cbn [mbind option_bind]. rewrite Havg. reflexivity. }
  split; [exact Hrun|]. split.
  - subst count files. pose proof (existing_length fs md). lia.
  - intros Hnil. rewrite Hrun. subst mb count total. rewrite Hnil. reflexivity.
Qed.

Example storage_usage_missing_file :
  let md := [("a_1", rec_of "regression" "models/a_1.pkl" []);
             ("b_2", rec_of "regression" "models/b_2.pkl" [])] in
  let fs : filesystem := {[ "models/a_1.pkl" := 3145728%Z ]} in
  get_storage_usage fs md =
    Some {| total_size_mb := 3; model_count := 1; avg_size_mb := 3 |}.
Proof. vm_compute. reflexivity. Qed.

End RegistryFacts.

(** ** No operation changes a table of its caller *)

Create HintDb frame.
#[export] Hint Resolve preserves_read preserves_getitem preserves_get_self
  preserves_set_self preserves_show preserves_lift preserves_raise preserves_as_num
  preserves_copy preserves_alloc preserves_setitem preserves_write preserves_ret : frame.
#[export] Hint Extern 1 (_ <= _)%nat => lia : frame.
#[export] Hint Extern 1 True => exact I : frame.

(** Walks through monadic code applying the frame rules. *)
Ltac frame :=
  lazymatch goal with
  | |- preserves _ (bind _ _) _ =>
      eapply preserves_bind; [frame | cbv beta; intros ? ?; frame]
  | |- preserves _ (try_except _ _) _ =>
      apply preserves_try; [frame | intros ?; frame]
  | |- preserves _ (for_each _ _) _ =>
      apply preserves_for_each; intros ?; frame
  | |- preserves _ (if ?b then _ else _) _ => destruct b; frame
  | |- preserves _ (match ?x with _ => _ end) _ => destruct x; frame
  | |- preserves _ _ _ =>
      first [ solve [eauto with frame]
            | eapply preserves_weaken; [solve [eauto with frame] | cbv beta; intros; eauto with frame] ]
  end.

Section PreprocessorFrame.
Import Preprocessor.
Context `{Externals}.

Lemma preserves_fillna_inplace n df name v :
  (n <= df)%nat -> preserves n (fillna_inplace df name v) (fun _ => True).
Proof. intros. unfold fillna_inplace. frame. Qed.

Lemma preserves_first_mode n c : preserves n (first_mode c) (fun _ => True).
Proof. unfold first_mode, from_option. frame. Qed.

Hint Resolve preserves_fillna_inplace preserves_first_mode : frame.

Lemma preserves_impute_one n df df_copy strategy col :
  (n <= df_copy)%nat -> preserves n (impute_one df df_copy strategy col) (fun _ => True).
Proof. intros. unfold impute_one. frame. Qed.

Hint Resolve preserves_impute_one : frame.

Lemma preserves_handle_missing_values n df strategy cols :
  preserves n (handle_missing_values df strategy cols) (fun l => (n <= l)%nat).
Proof. unfold handle_missing_values. frame. Qed.

Hint Resolve preserves_handle_missing_values : frame.

Lemma preserves_for_fold {A S : Type} n (xs : list A) (body : S -> A -> M S)
    (Q : S -> Prop) :
  (forall s x, Q s -> preserves n (body s x) Q) ->
  forall s, Q s -> preserves n (for_fold xs s body) Q.
Proof.
  intros Hbody. induction xs as [|x xs IH]; intros s Hs; simpl.
  - by apply preserves_ret.
  - eapply preserves_bind; [by apply Hbody|]. intros s' Hs'. by apply IH.
Qed.

Lemma preserves_set_label_encoder n col enc :
  preserves n (set_label_encoder col enc) (fun _ => True).
Proof. unfold set_label_encoder. frame. Qed.

Hint Resolve preserves_set_label_encoder : frame.

Lemma preserves_encode_one n method df_copy col :
  (n <= df_copy)%nat ->
  preserves n (encode_one method df_copy col) (fun l => (n <= l)%nat).
Proof. intros. unfold encode_one. frame. Qed.

Lemma preserves_encode_categorical_variables n df cols method :
  preserves n (encode_categorical_variables df cols method) (fun l => (n <= l)%nat).
Proof.
  unfold encode_categorical_variables.
  eapply preserves_bind; [apply preserves_copy|]. intros df_copy Hcopy.
  eapply preserves_bind with (Q := fun _ => True); [frame|]. intros cs _.
  apply preserves_for_fold; [|done].
  intros s x Hs. by apply preserves_encode_one.
Qed.

Lemma preserves_get_matrix n df cols :
  preserves n (get_matrix df cols) (fun _ => True).
Proof. induction cols as [|col cols IH]; simpl; frame. Qed.

Lemma preserves_set_matrix n df cols X :
  (n <= df)%nat -> preserves n (set_matrix df cols X) (fun _ => True).
Proof.
  intros Hdf. revert X. induction cols as [|col cols IH]; intros [|xs X]; simpl; frame.
Qed.

Lemma preserves_set_scaler n sc : preserves n (set_scaler sc) (fun _ => True).
Proof. unfold set_scaler. frame. Qed.

Hint Resolve preserves_get_matrix preserves_set_matrix preserves_set_scaler : frame.

Lemma preserves_scale_with n kind df_copy cols :
  (n <= df_copy)%nat -> preserves n (scale_with kind df_copy cols) (fun _ => True).
Proof. intros. unfold scale_with. frame. Qed.

Hint Resolve preserves_scale_with : frame.

Lemma preserves_scale_features n df cols method :
  preserves n (scale_features df cols method) (fun l => (n <= l)%nat).
Proof. unfold scale_features. frame. Qed.

End PreprocessorFrame.

Section FinancialFrame.
Import Financial.
Context `{Externals}.

Lemma preserves_num n df name : preserves n (num df name) (fun _ => True).
Proof. unfold num. frame. Qed.

Lemma preserves_assign n df name xs :
  (n <= df)%nat -> preserves n (assign df name xs) (fun _ => True).
Proof. intros. unfold assign. frame. Qed.

Hint Resolve preserves_num preserves_assign : frame.

Lemma preserves_indicator_columns n df :
  (n <= df)%nat -> preserves n (indicator_columns df) (fun _ => True).
Proof. intros. unfold indicator_columns. frame. Qed.

Hint Resolve preserves_indicator_columns : frame.

(** What the feature-builder operations return: a new object, or [data]. *)
Definition fresh_or (n : nat) (data : loc) (l : loc) : Prop :=
  (n <= l)%nat \/ l = data.

Lemma preserves_add_technical_indicators n data :
  preserves n (add_technical_indicators data) (fresh_or n data).
Proof.
  unfold add_technical_indicators, fresh_or. apply preserves_try.
  - eapply preserves_bind; [apply preserves_copy|]. intros df Hdf.
    eapply preserves_bind; [by apply preserves_indicator_columns|]. intros _ _.
    apply preserves_ret. by left.
  - intros e. eapply preserves_bind; [apply preserves_show|]. intros _ _.
    apply preserves_ret. by right.
Qed.

Lemma preserves_add_technical_indicators_fresh n data :
  (n <= data)%nat ->
  preserves n (add_technical_indicators data) (fun l => (n <= l)%nat).
Proof.
  intros Hdata. eapply preserves_weaken; [apply preserves_add_technical_indicators|].
  intros l [Hl| ->]; done.
Qed.

Lemma preserves_drop_missing_target n df :
  preserves n (drop_missing_target df) (fun l => (n <= l)%nat).
Proof. unfold drop_missing_target. frame. Qed.

Hint Resolve preserves_add_technical_indicators_fresh preserves_drop_missing_target : frame.

Lemma preserves_create_classification_target n data method periods :
  preserves n (create_classification_target data method periods) (fresh_or n data).
Proof.
  unfold create_classification_target, fresh_or. apply preserves_try.
  - eapply preserves_bind; [apply preserves_copy|]. intros df Hdf.
    eapply preserves_bind with (Q := fun l => (n <= l)%nat).
    + frame.
    + intros df' Hdf'. eapply preserves_weaken; [apply preserves_drop_missing_target|].
      intros l Hl. by left.
  - intros e. eapply preserves_bind; [apply preserves_show|]. intros _ _.
    apply preserves_ret. by right.
Qed.

Lemma preserves_create_regression_target n data target_type periods :
  preserves n (create_regression_target data target_type periods) (fresh_or n data).
Proof.
  unfold create_regression_target, fresh_or. apply preserves_try.
  - eapply preserves_bind; [apply preserves_copy|]. intros df Hdf.
    eapply preserves_bind with (Q := fun _ => True).
    + frame.
    + intros _ _. eapply preserves_weaken; [apply preserves_drop_missing_target|].
      intros l Hl. by left.
  - intros e. eapply preserves_bind; [apply preserves_show|]. intros _ _.
    apply preserves_ret. by right.
Qed.

Lemma preserves_calendar_feature n df field :
  preserves n (calendar_feature df field) (fun _ => True).
Proof. unfold calendar_feature. frame. Qed.

Hint Resolve preserves_calendar_feature : frame.

Lemma fresh_or_fresh n data l : (n <= data)%nat -> fresh_or n data l -> (n <= l)%nat.
Proof. intros Hdata [Hl| ->]; done. Qed.

Lemma preserves_prepare_ml_dataset n data task_type target_method periods include :
  preserves n (prepare_ml_dataset data task_type target_method periods include)
    (fresh_or n data).
Proof.
  unfold prepare_ml_dataset. apply preserves_try.
  - eapply preserves_bind; [apply preserves_copy|]. intros df0 Hdf0.
    eapply preserves_bind with (Q := fun l => (n <= l)%nat).
    { destruct include; frame. }
    intros df1 Hdf1.
    eapply preserves_bind with (Q := fun l => (n <= l)%nat).
    { destruct (String.eqb task_type "classification");
        (eapply preserves_weaken;
         [first [apply preserves_create_classification_target
                | apply preserves_create_regression_target]
         | intros l Hl; by apply (fresh_or_fresh n df1)]). }
    intros df2 Hdf2.
    eapply preserves_bind; [apply preserves_read|]. intros t _.
    eapply preserves_bind with (Q := fun _ => True); [frame|]. intros drop _.
    eapply preserves_bind; [apply preserves_read|]. intros t' _.
    eapply preserves_bind; [apply preserves_alloc|]. intros df3 Hdf3.
    eapply preserves_bind; [apply preserves_read|]. intros t'' _.
    eapply preserves_weaken; [apply preserves_alloc|]. intros l Hl. by left.
  - intros e. eapply preserves_bind; [apply preserves_show|]. intros _ _.
    apply preserves_ret. by right.
Qed.

End FinancialFrame.

(** ** The caller's tables after a call *)

Section CallerView.
Import Preprocessor Financial.
Context `{Externals}.

(** [l] is an object that did not exist in [w]. *)
Definition new_object (w : world) (l : loc) : Prop := (length (frames w) <= l)%nat.

(** Running [m] in [w] changes none of the DataFrame objects of [w], and a
    returned object satisfies [allowed]. *)
Definition untouched (w : world) (m : M loc) (allowed : loc -> Prop) : Prop :=
  (forall (l : loc) (t : table),
      frames w !! l = Some t -> frames (snd (m w)) !! l = Some t) /\
  (forall r : loc, fst (m w) = Ok r -> allowed r).

Lemma preserves_untouched (w : world) (m : M loc) (Q : loc -> Prop) :
  preserves (length (frames w)) m Q -> untouched w m Q.
Proof.
  intros Hm. destruct (Hm w (le_n _)) as (Htake & Hlen & HQ).
  split; [|exact HQ].
  intros l t Hl. rewrite firstn_all in Htake.
  assert (Hlt : (l < length (frames w))%nat) by (by eapply lookup_lt_Some).
  rewrite <- Hl, <- Htake. symmetry. by apply lookup_take_lt.
Qed.

(** C9, as amended.  No transformation changes a table of its caller: after
    the call every DataFrame object of the caller holds the table it held
    before.  The preprocessor operations hand back a new object; the
    feature-builder operations hand back a new object or, after a caught
    error, the input object itself. *)
Theorem operations_leave_input_unchanged (w : world) (data : loc) :
  (forall strategy cols,
      untouched w (handle_missing_values data strategy cols) (new_object w)) /\
  (forall cols method,
      untouched w (encode_categorical_variables data cols method) (new_object w)) /\
  (forall cols method,
      untouched w (scale_features data cols method) (new_object w)) /\
  untouched w (add_technical_indicators data)
    (fun l => new_object w l \/ l = data) /\
  (forall method periods,
      untouched w (create_classification_target data method periods)
        (fun l => new_object w l \/ l = data)) /\
  (forall target_type periods,
      untouched w (create_regression_target data target_type periods)
        (fun l => new_object w l \/ l = data)) /\
  (forall task_type target_method periods include,
      untouched w (prepare_ml_dataset data task_type target_method periods include)
        (fun l => new_object w l \/ l = data)).
Proof.
  repeat match goal with |- _ /\ _ => split end; intros; apply preserves_untouched.
  - apply preserves_handle_missing_values.
  - apply preserves_encode_categorical_variables.
  - apply preserves_scale_features.
  - apply preserves_add_technical_indicators.
  - apply preserves_create_classification_target.
  - apply preserves_create_regression_target.
  - apply preserves_prepare_ml_dataset.
Qed.

End CallerView.

(** A table without a [Close] column: the first indicator fails, the error is
    shown, and the very object that was passed in is returned. *)
Definition no_close_example : table := [("Open", NumCol [Fin 1; Fin 2])].

Lemma add_technical_indicators_returns_input :
  Financial.add_technical_indicators (H := sample_externals) 0%nat
    (session [no_close_example]) =
  (Ok 0%nat,
   {| frames := [no_close_example; no_close_example];
      self := new_preprocessor;
      ui := [st_error "Error adding technical indicators"] |}).
Proof. vm_compute. reflexivity. Qed.

(** ** Mean imputation *)

Section Imputation.
Import Preprocessor.
Context `{Externals}.

(** What mean imputation does to one column. *)
Definition impute_mean_col (c : column) : column :=
  if has_null c then
    match c with
    | NumCol xs => NumCol (fillna_num (mean xs) xs)
    | ObjCol xs => ObjCol (map (fun x => Some (default (PStr "Unknown") x)) xs)
    | DateCol xs => ObjCol (map (fun x => Some (from_option PTimestamp (PStr "Unknown") x)) xs)
    end
  else c.

Definition impute_mean (t : table) : table :=
  map (fun nc => (fst nc, impute_mean_col (snd nc))) t.

(** One iteration of the loop on a column the copy still shares with [df]. *)
Lemma impute_one_mean (w : world) (df df_copy : loc) (t tc : table)
    (col : string) (c : column) :
  frames w !! df = Some t -> frames w !! df_copy = Some tc ->
  lookup_col col t = Some c -> lookup_col col tc = Some c ->
  impute_one df df_copy "mean" col w =
    (Ok tt, upd df_copy (set_col col (impute_mean_col c) tc) w).
Proof.
  intros Hdf Hcopy Hc Hcc. unfold impute_one.
  rewrite (bind_ok _ _ _ _ _ (getitem_ok _ _ _ _ _ Hdf Hc)).
  unfold impute_mean_col. destruct (has_null c) eqn:Hnull.
  - destruct c as [xs|xs|xs]; simpl; unfold fillna_inplace;
      rewrite (bind_ok _ _ _ _ _ (getitem_ok _ _ _ _ _ Hcopy Hcc)); simpl;
      unfold lift, bind; simpl; by rewrite (setitem_ok _ _ _ _ _ Hcopy).
  - rewrite set_col_same by done. by rewrite upd_id.
Qed.

(** The table the loop builds when it is run on the names [cols]. *)
Definition impute_cols (cols : list string) (tc : table) : table :=
  fold_left (fun tc col =>
               match lookup_col col tc with
               | Some c => set_col col (impute_mean_col c) tc
               | None => tc
               end) cols tc.

Lemma impute_loop (w : world) (df df_copy : loc) (t : table) (cols : list string) :
  forall tc,
  frames w !! df = Some t -> frames w !! df_copy = Some tc -> df <> df_copy ->
  NoDup cols ->
  (forall col, In col cols ->
     exists c, lookup_col col t = Some c /\ lookup_col col tc = Some c) ->
  for_each cols (impute_one df df_copy "mean") w =
    (Ok tt, upd df_copy (impute_cols cols tc) w).
Proof.
  revert w. induction cols as [|col cols IH]; intros w tc Hdf Hcopy Hne Hnd Hcols.
  - simpl. by rewrite upd_id.
  - cbn [for_each]. destruct (Hcols col (or_introl eq_refl)) as (c & Hc & Hcc).
    apply NoDup_cons in Hnd as [Hnotin Hnd].
    rewrite (bind_ok _ _ _ _ _ (impute_one_mean _ _ _ _ _ _ _ Hdf Hcopy Hc Hcc)).
    assert (Hlt : (df_copy < length (frames w))%nat) by (by eapply lookup_lt_Some).
    rewrite (IH _ (set_col col (impute_mean_col c) tc)).
    + rewrite upd_upd. cbn [impute_cols fold_left]. by rewrite Hcc.
    + by rewrite frames_upd_ne.
    + by apply frames_upd_eq.
    + done.
    + done.
    + intros col' Hin. destruct (Hcols col' (or_intror Hin)) as (c' & Hc' & Hcc').
      exists c'. split; [done|]. rewrite lookup_set_col.
      destruct (String.eqb_spec col col') as [->|_]; [|done].
      apply list_elem_of_In in Hin. contradiction.
Qed.

Lemma impute_cols_columns (pre rest : table) :
  NoDup (columns (pre ++ rest)) ->
  impute_cols (columns rest) (pre ++ rest) = pre ++ impute_mean rest.
Proof.
  revert pre. induction rest as [|[n c] rest IH]; intros pre Hnd; [simpl; by rewrite app_nil_r|].
  cbn [columns map fst impute_cols fold_left].
  assert (Hnotin : ~ In n (columns pre)).
  { unfold columns in Hnd. rewrite map_app in Hnd. simpl in Hnd.
    apply NoDup_app in Hnd as (_ & Hdisj & _). intros Hin.
    apply (Hdisj n); [by apply list_elem_of_In | left]. }
  assert (Hlook : lookup_col n (pre ++ (n, c) :: rest) = Some c).
  { clear -Hnotin. induction pre as [|[n' c'] pre IH]; simpl.
    - by rewrite String.eqb_refl.
    - simpl in Hnotin. destruct (String.eqb_spec n' n) as [->|_]; [tauto|].
      apply IH. tauto. }
  rewrite Hlook.
  assert (Hset : set_col n (impute_mean_col c) (pre ++ (n, c) :: rest) =
                 (pre ++ [(n, impute_mean_col c)]) ++ rest).
  { clear -Hnotin. induction pre as [|[n' c'] pre IH]; simpl.
    - by rewrite String.eqb_refl.
    - simpl in Hnotin. destruct (String.eqb_spec n' n) as [->|_]; [tauto|].
      f_equal. apply IH. tauto. }
  rewrite Hset. fold (impute_cols (map fst rest) ((pre ++ [(n, impute_mean_col c)]) ++ rest)).
  change (map fst rest) with (columns rest). rewrite IH.
  - by rewrite <- app_assoc.
  - unfold columns in *. rewrite !map_app in *. simpl in *.
    by rewrite <- app_assoc.
Qed.


Lemma columns_impute_mean (t : table) : columns (impute_mean t) = columns t.
Proof. unfold columns, impute_mean. rewrite map_map. by apply map_ext. Qed.

(** The whole call, as a function of the input table. *)
Lemma handle_missing_values_mean_run (w : world) (df : loc) (t : table) :
  frames w !! df = Some t -> NoDup (columns t) ->
  handle_missing_values df "mean" None w =
    (Ok (length (frames w)),
     {| frames := frames w ++ [impute_mean t]; self := self w; ui := ui w |}).
Proof.
  intros Hdf Hnd. unfold handle_missing_values.
  rewrite (bind_ok _ _ _ _ _ (copy_ok _ _ _ Hdf)).
  set (w1 := {| frames := frames w ++ [t]; self := self w; ui := ui w |}).
  assert (Hdf1 : frames w1 !! df = Some t).
  { simpl. apply lookup_app_l_Some. done. }
  assert (Hcopy1 : frames w1 !! length (frames w) = Some t).
  { simpl. by rewrite lookup_app_r, Nat.sub_diag. }
  assert (Hne : df <> length (frames w)).
  { apply lookup_lt_Some in Hdf. lia. }
  rewrite (bind_ok _ _ w1 w1 (columns t)) by (by rewrite (bind_ok _ _ _ _ _ (read_ok _ _ _ Hdf1))).
  rewrite (bind_ok _ _ _ _ _ (impute_loop w1 _ _ t (columns t) t Hdf1 Hcopy1 Hne Hnd
             ltac:(intros col Hin; destruct (lookup_col_In col t Hin) as [c Hc]; eauto))).
  pose proof (impute_cols_columns [] t Hnd) as Himp. simpl in Himp.
  rewrite Himp. unfold ret, upd, w1. simpl. f_equal. f_equal.
  rewrite insert_app_r_alt by lia. by rewrite Nat.sub_diag.
Qed.






End Imputation.

(** A numeric column with one null whose other cells average to 10, next to
    a column without nulls. *)
Definition mean_ten_example : table :=
  [("x", NumCol [Fin 8; NaN; Fin 12]); ("y", NumCol [Fin 1; Fin 2; Fin 3])].

Example mean_ten_imputed :
  Preprocessor.handle_missing_values (H := sample_externals) 0%nat "mean" None
    (session [mean_ten_example]) =
  (Ok 1%nat,
   session [mean_ten_example;
            [("x", NumCol [Fin 8; Fin 10; Fin 12]); ("y", NumCol [Fin 1; Fin 2; Fin 3])]]).
Proof. vm_compute. reflexivity. Qed.


(** ** Fit once, apply many times *)

(** ** Code that does not touch the preprocessor's fields *)

Definition keeps_self {A : Type} (m : M A) : Prop :=
  forall w, self (snd (m w)) = self w.

Lemma keeps_self_ret {A : Type} (a : A) : keeps_self (ret a).
Proof. by intros w. Qed.

Lemma keeps_self_raise {A : Type} (e : exn) : keeps_self (raise (A := A) e).
Proof. by intros w. Qed.

Lemma keeps_self_lift {A : Type} (o : outcome A) : keeps_self (lift o).
Proof. by intros w. Qed.

Lemma keeps_self_bind {A B : Type} (m : M A) (f : A -> M B) :
  keeps_self m -> (forall a, keeps_self (f a)) -> keeps_self (bind m f).
Proof.
  intros Hm Hf w. unfold bind. specialize (Hm w).
  destruct (m w) as [[a|e] w']; simpl in *; [|done].
  by rewrite Hf.
Qed.

Lemma keeps_self_read (l : loc) : keeps_self (read l).
Proof. intros w. unfold read. by destruct (frames w !! l). Qed.

Lemma keeps_self_alloc (t : table) : keeps_self (alloc t).
Proof. by intros w. Qed.

Lemma keeps_self_write (l : loc) (t : table) : keeps_self (write l t).
Proof. by intros w. Qed.

Lemma keeps_self_get_self : keeps_self get_self.
Proof. by intros w. Qed.

Lemma keeps_self_show (m : ui_msg) : keeps_self (show m).
Proof. by intros w. Qed.

Create HintDb selfdb.
#[export] Hint Resolve keeps_self_ret keeps_self_raise keeps_self_lift keeps_self_read
  keeps_self_alloc keeps_self_write keeps_self_get_self keeps_self_show : selfdb.

Ltac selfsame :=
  lazymatch goal with
  | |- keeps_self (bind _ _) => apply keeps_self_bind; [selfsame | intros ?; selfsame]
  | |- keeps_self (if ?b then _ else _) => destruct b; selfsame
  | |- keeps_self (match ?x with _ => _ end) => destruct x; selfsame
  | |- keeps_self _ => solve [eauto with selfdb]
  end.

Lemma keeps_self_copy (l : loc) : keeps_self (copy l).
Proof. unfold copy. selfsame. Qed.

Lemma keeps_self_getitem (l : loc) (name : string) : keeps_self (getitem l name).
Proof. unfold getitem. selfsame. Qed.

Lemma keeps_self_setitem (l : loc) (name : string) (c : column) :
  keeps_self (setitem l name c).
Proof. unfold setitem. selfsame. Qed.

#[export] Hint Resolve keeps_self_copy keeps_self_getitem keeps_self_setitem : selfdb.




(** Inversion of a successful run of a sequence. *)
Lemma bind_Ok_inv {A B : Type} (m : M A) (f : A -> M B) (w w' : world) (b : B) :
  bind m f w = (Ok b, w') ->
  exists a w1, m w = (Ok a, w1) /\ f a w1 = (Ok b, w').
Proof.
  unfold bind. destruct (m w) as [[a|e] w1]; [eauto|discriminate].
Qed.

Section FitOnce.
Import Preprocessor.
Context `{Externals}.

Lemma keeps_self_get_matrix (df : loc) (cols : list string) :
  keeps_self (get_matrix df cols).
Proof. induction cols as [|col cols IH]; simpl; selfsame. Qed.

Lemma keeps_self_set_matrix (df : loc) (cols : list string) (X : list (list fval)) :
  keeps_self (set_matrix df cols X).
Proof. revert X. induction cols as [|col cols IH]; intros [|xs X]; simpl; selfsame. Qed.

Hint Resolve keeps_self_get_matrix keeps_self_set_matrix : selfdb.

(** *** The scaler *)






(** *** The label encoders *)





(** The fields after [self.label_encoders[col] = enc]. *)
Definition with_encoder (col : string) (enc : label_encoder) (p : preprocessor)
  : preprocessor :=
  {| label_encoders := <[col := enc]> (label_encoders p);
     scaler := scaler p; imputer := imputer p;
     feature_selector := feature_selector p;
     target_encoder := target_encoder p |}.

Lemma set_label_encoder_run (col : string) (enc : label_encoder) (w : world) :
  set_label_encoder col enc w =
    (Ok tt, {| frames := frames w; self := with_encoder col enc (self w); ui := ui w |}).
Proof. reflexivity. Qed.








(** The fields other than the encoders. *)
Definition other_fields (p0 p : preprocessor) : Prop :=
  scaler p = scaler p0 /\ imputer p = imputer p0 /\
  feature_selector p = feature_selector p0 /\ target_encoder p = target_encoder p0.






(** *** The feature selector *)


Lemma set_feature_selector_run (sel : option select_k_best) (w : world) :
  feature_selector (self (snd (set_feature_selector sel w))) = sel.
Proof. reflexivity. Qed.


(** *** Applying without fitting *)

Lemma bind_congr {A B : Type} (m : M A) (f g : A -> M B) (w : world) :
  (forall a w1, m w = (Ok a, w1) -> f a w1 = g a w1) ->
  bind m f w = bind m g w.
Proof.
  intros Hfg. unfold bind. destruct (m w) as [[a|e] w1]; [by apply Hfg|done].
Qed.



(** What one iteration of the encoding loop amounts to for a column whose
    encoder [enc] is in place. *)
Lemma encode_one_applies (df_copy : loc) (col : string) (w : world) (enc : label_encoder) :
  label_encoders (self w) !! col = Some enc ->
  encode_one "label" df_copy col w =
    (c <- getitem df_copy col ;;
     codes <- lift (encoder_transform enc (astype_str c)) ;;
     setitem df_copy col (NumCol codes) ;;;
     ret df_copy) w.
Proof.
  intros Henc. unfold encode_one. cbn [String.eqb Ascii.eqb Bool.eqb].
  unfold bind at 1. cbn [get_self]. by rewrite Henc.
Qed.


End FitOnce.

(** Two tables with the same numeric column [x]. *)
Definition train_example : table := [("x", NumCol [Fin 1; Fin 2; Fin 3])].
Definition unseen_example : table := [("x", NumCol [Fin 10; Fin 20])].


Example scaler_unchanged_by_second_call :
  let w1 := snd (Preprocessor.scale_features (H := sample_externals) 0%nat None "standard"
                   (session [train_example; unseen_example])) in
  let w2 := snd (Preprocessor.scale_features (H := sample_externals) 1%nat None "standard" w1) in
  scaler (self w1) =
    Some (mk_scaler StandardScaler (Some (mk_scaler_params [Fin 2] [Fin 1]))) /\
  scaler (self w2) = scaler (self w1) /\
  frames w2 !! 3%nat = Some [("x", NumCol [Fin 8; Fin 18])].
Proof. vm_compute. repeat split; reflexivity. Qed.

(** ** Replay on a preprocessor without fitted state *)

Section Replay.
Import Preprocessor.
Context `{Externals}.

(** *** Fitting an encoder on the labels it is then applied to *)

Lemma insert_class_In (s x : string) (classes : list string) :
  In x (insert_class s classes) <-> x = s \/ In x classes.
Proof.
  induction classes as [|c rest IH]; simpl; [intuition congruence|].
  destruct (String.compare s c) eqn:Hcmp; simpl.
  - apply String.compare_eq_iff in Hcmp as ->. intuition congruence.
  - intuition congruence.
  - rewrite IH. intuition congruence.
Qed.

Lemma le_fit_In (ys : list string) (y : string) : In y (le_fit ys) <-> In y ys.
Proof.
  induction ys as [|y' ys IH]; simpl; [done|].
  rewrite insert_class_In, IH. intuition congruence.
Qed.

Lemma index_of_In (s : string) (classes : list string) :
  In s classes -> exists i, index_of s classes = Some i.
Proof.
  induction classes as [|c rest IH]; simpl; [done|].
  destruct (String.eqb_spec c s) as [->|Hne]; [eauto|].
  intros [?|Hin]; [done|]. destruct (IH Hin) as [i ->]. simpl. eauto.
Qed.

Lemma le_transform_known (classes ys : list string) :
  (forall y, In y ys -> In y classes) ->
  exists codes, le_transform classes ys = Ok codes.
Proof.
  induction ys as [|y ys IH]; intros Hys; simpl; [eauto|].
  destruct (index_of_In y classes (Hys y (or_introl eq_refl))) as [i ->].
  destruct IH as [codes ->]; [intros; apply Hys; by right|]. eauto.
Qed.

Lemma le_fit_transform (ys : list string) :
  exists codes, le_transform (le_fit ys) ys = Ok codes.
Proof. apply le_transform_known. intros y. by rewrite le_fit_In. Qed.

(** *** The encoding loop on a preprocessor without encoders for the columns *)

Lemma with_encoder_twice (col : string) (e1 e2 : label_encoder) (p : preprocessor) :
  with_encoder col e2 (with_encoder col e1 p) = with_encoder col e2 p.
Proof. unfold with_encoder. simpl. by rewrite insert_insert_eq. Qed.

Lemma encode_one_fresh (w : world) (l : loc) (tc : table) (col : string) (c : column) :
  frames w !! l = Some tc -> lookup_col col tc = Some c ->
  label_encoders (self w) !! col = None ->
  exists codes,
    encode_one "label" l col w =
      (Ok l, {| frames := <[l := set_col col (NumCol codes) tc]> (frames w);
                self := with_encoder col
                          (mk_label_encoder (Some (le_fit (astype_str c)))) (self w);
                ui := ui w |}).
Proof.
  intros Hl Hc Hnone. destruct (le_fit_transform (astype_str c)) as [codes Hcodes].
  exists codes. unfold encode_one. cbn [String.eqb Ascii.eqb Bool.eqb].
  unfold bind at 1. cbn [get_self]. rewrite Hnone.
  rewrite (bind_ok _ _ _ _ _ (set_label_encoder_run _ _ _)).
  erewrite bind_ok by (eapply getitem_ok; [exact Hl | exact Hc]).
  rewrite (bind_ok _ _ _ _ _ (set_label_encoder_run _ _ _)).
  cbn [self frames ui]. rewrite with_encoder_twice.
  unfold lift at 1. unfold bind at 1. rewrite Hcodes.
  erewrite bind_ok by (eapply setitem_ok; exact Hl).
  reflexivity.
Qed.

Lemma encode_fresh_loop (l : loc) (cats : list string) : forall (w : world) (tc : table),
  frames w !! l = Some tc -> NoDup cats ->
  (forall col, In col cats -> exists c, lookup_col col tc = Some c) ->
  (forall col, In col cats -> label_encoders (self w) !! col = None) ->
  exists w' tc',
    for_fold cats l (encode_one "label") w = (Ok l, w') /\
    frames w' = <[l := tc']> (frames w) /\
    columns tc' = columns tc /\
    other_fields (self w) (self w') /\
    ui w' = ui w.
Proof.
  induction cats as [|col cats IH]; intros w tc Hl Hnd Hcols Hnone.
  - exists w, tc. repeat split; [|done..]. by rewrite list_insert_id.
  - apply NoDup_cons in Hnd as [Hnotin Hnd].
    destruct (Hcols col (or_introl eq_refl)) as [c Hc].
    destruct (encode_one_fresh w l tc col c Hl Hc (Hnone col (or_introl eq_refl)))
      as [codes Hone].
    set (w1 := {| frames := <[l := set_col col (NumCol codes) tc]> (frames w);
                  self := with_encoder col
                            (mk_label_encoder (Some (le_fit (astype_str c)))) (self w);
                  ui := ui w |}) in *.
    assert (Hlt : (l < length (frames w))%nat) by (by eapply lookup_lt_Some).
    destruct (IH w1 (set_col col (NumCol codes) tc)) as (w' & tc' & Hrun & Hfr & Hcs & Hof & Hui).
    + simpl. by apply list_lookup_insert_eq.
    + done.
    + intros col' Hin. rewrite lookup_set_col.
      destruct (String.eqb col col'); [eauto|]. apply Hcols. by right.
    + intros col' Hin. simpl. rewrite lookup_insert_ne.
      * apply Hnone. by right.
      * intros ->. apply Hnotin. by apply list_elem_of_In.
    + exists w', tc'. split; [|split; [|split; [|split]]].
      * cbn [for_fold]. by rewrite (bind_ok _ _ _ _ _ Hone).
      * rewrite Hfr. simpl. by rewrite list_insert_insert_eq.
      * rewrite Hcs. by eapply columns_set_col.
      * destruct Hof as (? & ? & ? & ?). by repeat split.
      * by rewrite Hui.
Qed.

Lemma select_dtypes_In (p : column -> bool) (t : table) (col : string) :
  In col (select_dtypes p t) -> In col (columns t).
Proof.
  unfold select_dtypes, columns. induction t as [|[n c] t IH]; simpl; [done|].
  destruct (p c); simpl; intuition.
Qed.

Lemma select_dtypes_NoDup (p : column -> bool) (t : table) :
  NoDup (columns t) -> NoDup (select_dtypes p t).
Proof.
  unfold select_dtypes, columns. induction t as [|[n c] t IH]; simpl; [done|].
  intros [Hn Hnd]%NoDup_cons. destruct (p c); simpl; [|by apply IH].
  apply NoDup_cons. split; [|by apply IH].
  intros Hin%list_elem_of_In. apply Hn, list_elem_of_In.
  by apply (select_dtypes_In p t).
Qed.

(** *** The whole replay on a preprocessor without fitted state *)

(** The steps of [transform_new_data] after encoding, when neither a scaler
    nor a selector is there: only the reindexing is left. *)
Lemma replay_tail (w : world) (l : loc) (t3 : table) (fc : list string) :
  frames w !! l = Some t3 ->
  scaler (self w) = None -> feature_selector (self w) = None ->
  (t <- read l ;;
   p <- get_self ;;
   df_copy <- (match select_dtypes is_numeric t, scaler p with
               | _ :: _, Some _ =>
                   scale_features l (Some (select_dtypes is_numeric t)) "standard"
               | _, _ => ret l
               end) ;;
   p <- get_self ;;
   df_copy <- (match feature_selector p with
               | Some sel =>
                   t <- read df_copy ;;
                   X <- lift (selector_transform sel t) ;;
                   t' <- lift (dataframe_of X fc) ;;
                   alloc t'
               | None => ret df_copy
               end) ;;
   t <- read df_copy ;;
   alloc (reindex fc t)) w =
  (Ok (length (frames w)),
   {| frames := frames w ++ [reindex fc t3]; self := self w; ui := ui w |}).
Proof.
  intros Hl Hsc Hsel.
  rewrite (bind_ok _ _ _ _ _ (read_ok _ _ _ Hl)).
  unfold bind at 1. cbn [get_self]. rewrite Hsc.
  assert (Hret : (match select_dtypes is_numeric t3 with
                  | [] => ret l
                  | _ :: _ => ret l
                  end) w = (Ok l, w)) by (by destruct (select_dtypes is_numeric t3)).
  rewrite (bind_ok _ _ _ _ _ Hret).
  unfold bind at 1. cbn [get_self]. rewrite Hsel.
  unfold bind at 1. cbn [ret].
  by rewrite (bind_ok _ _ _ _ _ (read_ok _ _ _ Hl)).
Qed.

Lemma transform_new_data_fresh (w : world) (df : loc) (t : table) (fc : list string) :
  frames w !! df = Some t -> NoDup (columns t) -> self w = new_preprocessor ->
  exists (l' : loc) (w' : world) (t3 : table),
    transform_new_data df fc w = (Ok l', w') /\
    frames w' !! l' = Some (reindex fc t3) /\
    frames w' !! df = Some t /\
    columns t3 = columns t /\
    scaler (self w') = None /\ feature_selector (self w') = None /\
    (select_dtypes is_object (impute_mean t) = [] ->
     t3 = impute_mean t /\ self w' = self w).
Proof.
  intros Hdf Hnd Hself. unfold transform_new_data.
  rewrite (bind_ok _ _ _ _ _ (copy_ok _ _ _ Hdf)).
  set (w1 := {| frames := frames w ++ [t]; self := self w; ui := ui w |}).
  assert (Hl1 : frames w1 !! length (frames w) = Some t).
  { simpl. by rewrite lookup_app_r, Nat.sub_diag. }
  rewrite (bind_ok _ _ _ _ _ (handle_missing_values_mean_run w1 _ t Hl1 Hnd)).
  set (w2 := {| frames := frames w1 ++ [impute_mean t]; self := self w1; ui := ui w1 |}).
  assert (Hl2 : frames w2 !! length (frames w1) = Some (impute_mean t)).
  { simpl. by rewrite lookup_app_r, Nat.sub_diag. }
  rewrite (bind_ok _ _ _ _ _ (read_ok _ _ _ Hl2)). cbv zeta.
  assert (Hdf2 : frames w2 !! df = Some t).
  { simpl. apply lookup_app_l_Some. by apply lookup_app_l_Some. }
  assert (Hnd_c : NoDup (select_dtypes is_object (impute_mean t))).
  { apply select_dtypes_NoDup. by rewrite columns_impute_mean. }
  assert (Hin_c : forall col, In col (select_dtypes is_object (impute_mean t)) ->
                    exists c, lookup_col col (impute_mean t) = Some c).
  { intros col Hin. apply lookup_col_In. by eapply select_dtypes_In. }
  destruct (select_dtypes is_object (impute_mean t)) as [|c0 cats].
  - rewrite (bind_ok _ _ w2 w2 (length (frames w1))) by reflexivity.
    rewrite (replay_tail w2 _ (impute_mean t) fc Hl2) by (simpl; by rewrite Hself).
    eexists _, _, (impute_mean t). split; [reflexivity|].
    split; [simpl; by rewrite lookup_app_r, Nat.sub_diag|].
    split; [simpl; by apply lookup_app_l_Some|].
    split; [apply columns_impute_mean|].
    simpl. rewrite Hself. by repeat split.
  - assert (Hcopy : copy (length (frames w1)) w2 =
              (Ok (length (frames w2)),
               {| frames := frames w2 ++ [impute_mean t]; self := self w2; ui := ui w2 |}))
      by (by apply copy_ok).
    set (w3 := {| frames := frames w2 ++ [impute_mean t]; self := self w2; ui := ui w2 |}) in *.
    assert (Hl3 : frames w3 !! length (frames w2) = Some (impute_mean t)).
    { simpl. by rewrite lookup_app_r, Nat.sub_diag. }
    destruct (encode_fresh_loop (length (frames w2)) (c0 :: cats) w3 (impute_mean t)
                Hl3 Hnd_c Hin_c)
      as (w4 & tc' & Hrun & Hfr & Hcols & Hof & Hui).
    { intros col _. simpl. by rewrite Hself. }
    assert (Henc : encode_categorical_variables (length (frames w1))
                     (Some (c0 :: cats)) "label" w2 =
                   (Ok (length (frames w2)), w4)).
    { unfold encode_categorical_variables. rewrite (bind_ok _ _ _ _ _ Hcopy).
      by rewrite (bind_ok _ _ w3 w3 (c0 :: cats)). }
    rewrite (bind_ok _ _ _ _ _ Henc).
    assert (Hl4 : frames w4 !! length (frames w2) = Some tc').
    { rewrite Hfr. apply list_lookup_insert_eq. simpl. rewrite !length_app. simpl. lia. }
    destruct Hof as (Hsc & _ & Hsel & _).
    rewrite (replay_tail w4 _ tc' fc Hl4)
      by (first [rewrite Hsc | rewrite Hsel]; simpl; by rewrite Hself).
    eexists _, _, tc'. split; [reflexivity|].
    split; [simpl; by rewrite lookup_app_r, Nat.sub_diag|].
    split.
    { simpl. apply lookup_app_l_Some. rewrite Hfr.
      rewrite list_lookup_insert_ne.
      - simpl. apply lookup_app_l_Some. exact Hdf2.
      - apply lookup_lt_Some in Hdf. simpl. rewrite !length_app. simpl. lia. }
    split; [by rewrite Hcols, columns_impute_mean|].
    simpl. rewrite Hsc, Hsel. simpl. rewrite Hself. repeat split.
    all: discriminate.
Qed.

Definition all_numeric (t : table) : Prop :=
  forallb (fun nc => is_numeric (snd nc)) t = true.

Definition no_null (t : table) : Prop :=
  forallb (fun nc => negb (has_null (snd nc))) t = true.

Lemma all_numeric_no_object (t : table) :
  all_numeric t -> select_dtypes is_object (impute_mean t) = [].
Proof.
  unfold all_numeric, select_dtypes, impute_mean.
  induction t as [|[n c] t IH]; simpl; [done|].
  intros [Hc Ht]%andb_true_iff. destruct c; try discriminate.
  unfold impute_mean_col. destruct (has_null (NumCol xs)); simpl; by apply IH.
Qed.

Lemma no_null_impute_mean (t : table) : no_null t -> impute_mean t = t.
Proof.
  unfold no_null, impute_mean. induction t as [|[n c] t IH]; simpl; [done|].
  intros [Hc Ht]%andb_true_iff. rewrite IH by done.
  unfold impute_mean_col. by destruct (has_null c).
Qed.

Lemma lookup_col_NoDup (t : table) (n : string) (c : column) :
  NoDup (columns t) -> In (n, c) t -> lookup_col n t = Some c.
Proof.
  induction t as [|[n' c'] t IH]; simpl; [done|].
  intros [Hn Hnd]%NoDup_cons [Heq|Hin].
  - inversion Heq; subst. by rewrite String.eqb_refl.
  - destruct (String.eqb_spec n' n) as [->|_]; [|by apply IH].
    exfalso. apply Hn, list_elem_of_In. unfold columns.
    apply in_map_iff. by exists (n, c).
Qed.

Lemma reindex_columns (t : table) : NoDup (columns t) -> reindex (columns t) t = t.
Proof.
  intros Hnd. unfold reindex, columns. rewrite map_map.
  transitivity (map (fun nc : string * column => nc) t); [|apply map_id].
  apply map_ext_in. intros [n c] Hin. simpl.
  by rewrite (lookup_col_NoDup t n c Hnd Hin).
Qed.

(** C3, as amended.  Replay of a table with distinct column names on a
    preprocessor without fitted state is not an error and neither scales nor
    selects: scaler and selector stay unset.  It does impute and reindex:
    for a table of numeric columns the result is the mean-imputed table
    reindexed to the feature names, and the preprocessor stays as new; when
    that table has no null and the feature names are its columns, the result
    is the input table. *)
Theorem replay_without_fitted_state (w : world) (df : loc) (t : table)
    (feature_columns : list string) :
  frames w !! df = Some t -> NoDup (columns t) -> self w = new_preprocessor ->
  exists (l' : loc) (w' : world) (t3 : table),
    transform_new_data df feature_columns w = (Ok l', w') /\
    frames w' !! l' = Some (reindex feature_columns t3) /\
    scaler (self w') = None /\ feature_selector (self w') = None /\
    (all_numeric t -> t3 = impute_mean t /\ self w' = new_preprocessor) /\
    (all_numeric t -> no_null t -> feature_columns = columns t ->
     reindex feature_columns t3 = t).
Proof.
  intros Hdf Hnd Hself.
  destruct (transform_new_data_fresh w df t feature_columns Hdf Hnd Hself)
    as (l' & w' & t3 & Hrun & Hl' & _ & Hcols & Hsc & Hsel & Hnum).
  exists l', w', t3. repeat match goal with |- _ /\ _ => split end; try done.
  - intros Hall. destruct (Hnum (all_numeric_no_object t Hall)) as [-> Hs].
    split; [done|congruence].
  - intros Hall Hnn ->. destruct (Hnum (all_numeric_no_object t Hall)) as [-> _].
    rewrite no_null_impute_mean by done. by apply reindex_columns.
Qed.

End Replay.

(** A table with a null in a numeric column, replayed on a new preprocessor
    for the feature list [["x"]]: the null comes back filled. *)
Definition one_null_example : table := [("x", NumCol [Fin 8; NaN; Fin 12])].

Lemma replay_imputes_without_fitted_state :
  exists w',
    Preprocessor.transform_new_data (H := sample_externals) 0%nat ["x"]
      (session [one_null_example]) = (Ok 3%nat, w') /\
    frames w' !! 3%nat = Some [("x", NumCol [Fin 8; Fin 10; Fin 12])] /\
    self w' = new_preprocessor.
Proof. eexists. vm_compute. repeat split; reflexivity. Qed.

(** A categorical column replayed on a new preprocessor is encoded by an
    encoder fitted on the spot, which stays in the preprocessor. *)
Definition categorical_example : table :=
  [("c", ObjCol [Some (PStr "b"); Some (PStr "a"); Some (PStr "b")])].

Example replay_fits_new_encoders :
  let r := Preprocessor.transform_new_data (H := sample_externals) 0%nat ["c"]
             (session [categorical_example]) in
  fst r = Ok 4%nat /\
  frames (snd r) !! 4%nat = Some [("c", NumCol [Fin 1; Fin 0; Fin 1])] /\
  label_encoders (self (snd r)) !! "c" = Some (mk_label_encoder (Some ["a"; "b"])).
Proof. vm_compute. repeat split; reflexivity. Qed.

Lemma replay_without_fitted_state_witness :
  (frames (session [one_null_example]) !! 0%nat = Some one_null_example /\
   NoDup (columns one_null_example) /\
   self (session [one_null_example]) = new_preprocessor) /\
  exists (l' : loc) (w' : world) (t3 : table),
    Preprocessor.transform_new_data (H := sample_externals) 0%nat ["x"]
      (session [one_null_example]) = (Ok l', w') /\
    frames w' !! l' = Some (reindex ["x"] t3) /\
    scaler (self w') = None /\ feature_selector (self w') = None /\
    (all_numeric one_null_example ->
     t3 = impute_mean one_null_example /\ self w' = new_preprocessor) /\
    (all_numeric one_null_example -> no_null one_null_example ->
     ["x"] = columns one_null_example -> reindex ["x"] t3 = one_null_example).
Proof.
  assert (H1 : frames (session [one_null_example]) !! 0%nat = Some one_null_example)
    by reflexivity.
  assert (H2 : NoDup (columns one_null_example)).
  { vm_compute. apply NoDup_singleton. }
  assert (H3 : self (session [one_null_example]) = new_preprocessor) by reflexivity.
  split; [by repeat split|].
  exact (replay_without_fitted_state (H := sample_externals) _ _ _ ["x"] H1 H2 H3).
Defined.

(** ** A feature count that is not below the number of columns *)

Section FeatureCount.
Import Preprocessor.
Context `{Externals}.

(** The selection step is passed over when [k] is not below the number of
    feature columns: the second half of the pipeline runs as without [k]. *)
Lemma pipeline_select_split_skips (X : loc) (y : column) (test_size : Q) (k : Z)
    (task_type : string) (w : world) (tX : table) :
  frames w !! X = Some tX -> (Z.of_nat (length tX) <= k)%Z ->
  pipeline_select_split X y test_size (Some k) task_type w =
  pipeline_select_split X y test_size None task_type w.
Proof.
  intros HX Hk. unfold pipeline_select_split.
  rewrite !(bind_ok _ _ _ _ _ (read_ok _ _ _ HX)).
  assert (Hlt : (k <? Z.of_nat (length tX))%Z = false) by (apply Z.ltb_ge; lia).
  by rewrite Hlt, andb_false_r.
Qed.

(** Without a requested count, the second half leaves the preprocessor alone. *)
Lemma keeps_self_pipeline_select_split (X : loc) (y : column) (test_size : Q)
    (task_type : string) :
  keeps_self (pipeline_select_split X y test_size None task_type).
Proof.
  unfold pipeline_select_split.
  apply keeps_self_bind; [selfsame|]. intros tX.
  apply keeps_self_bind; [selfsame|]. intros X'.
  apply keeps_self_bind; [selfsame|]. intros tX'.
  apply keeps_self_bind; [selfsame|]. intros [[[X_train X_test] y_train] y_test].
  selfsame.
Qed.

(** C4, as amended.  A requested feature count [k] that is not below the
    number of feature columns reaching the selection step is passed over in
    silence: the pipeline returns exactly what it returns without a count
    (same outcome, same store, same messages), and its second half leaves the
    fields of the preprocessor, the selector among them, as the first half
    left them. *)
Theorem feature_count_not_below_columns_is_ignored
    (df : loc) (target_column : string) (test_size : Q)
    (missing_strategy encoding_method scaling_method : string)
    (k : Z) (task_type : string) (w : world) :
  (forall X y w1 tX,
     pipeline_features df target_column missing_strategy encoding_method
       scaling_method task_type w = (Ok (X, y), w1) ->
     frames w1 !! X = Some tX -> (Z.of_nat (length tX) <= k)%Z) ->
  preprocess_pipeline df target_column test_size missing_strategy encoding_method
    scaling_method (Some k) task_type w =
  preprocess_pipeline df target_column test_size missing_strategy encoding_method
    scaling_method None task_type w /\
  forall X y w1,
    pipeline_features df target_column missing_strategy encoding_method
      scaling_method task_type w = (Ok (X, y), w1) ->
    self (snd (preprocess_pipeline df target_column test_size missing_strategy
                 encoding_method scaling_method (Some k) task_type w)) = self w1.
Proof.
  intros Hk.
  assert (Heq : preprocess_pipeline df target_column test_size missing_strategy
                  encoding_method scaling_method (Some k) task_type w =
                preprocess_pipeline df target_column test_size missing_strategy
                  encoding_method scaling_method None task_type w).
  { unfold preprocess_pipeline. apply bind_congr. intros [X y] w1 Hfeat. simpl.
    destruct (frames w1 !! X) as [tX|] eqn:HX.
    - eapply pipeline_select_split_skips; [exact HX|]. by eapply Hk.
    - unfold pipeline_select_split, bind, read. by rewrite HX. }
  split; [exact Heq|].
  intros X y w1 Hfeat. rewrite Heq. unfold preprocess_pipeline.
  rewrite (bind_ok _ _ _ _ _ Hfeat). simpl.
  apply keeps_self_pipeline_select_split.
Qed.

End FeatureCount.

(** Two feature columns and a numeric target; five features are requested. *)
Definition two_features_example : table :=
  [("a", NumCol [Fin 1; Fin 2; Fin 3; Fin 4]);
   ("b", NumCol [Fin 4; Fin 3; Fin 2; Fin 1]);
   ("y", NumCol [Fin 10; Fin 20; Fin 30; Fin 40])].

Lemma too_many_features_is_no_error :
  exists X_train X_test y_train y_test w',
    Preprocessor.preprocess_pipeline (H := sample_externals) 0%nat "y" (1 # 5)
      "mean" "label" "standard" (Some 5%Z) "regression"
      (session [two_features_example]) =
    (Ok (X_train, X_test, y_train, y_test, ["a"; "b"]), w') /\
    feature_selector (self w') = None /\
    ui w' = [].
Proof. do 5 eexists. vm_compute. repeat split; reflexivity. Qed.

Lemma feature_count_not_below_columns_is_ignored_witness :
  (forall X y w1 tX,
     Preprocessor.pipeline_features (H := sample_externals) 0%nat "y"
       "mean" "label" "standard" "regression" (session [two_features_example])
       = (Ok (X, y), w1) ->
     frames w1 !! X = Some tX -> (Z.of_nat (length tX) <= 5)%Z) /\
  Preprocessor.preprocess_pipeline (H := sample_externals) 0%nat "y" (1 # 5)
    "mean" "label" "standard" (Some 5%Z) "regression" (session [two_features_example]) =
  Preprocessor.preprocess_pipeline (H := sample_externals) 0%nat "y" (1 # 5)
    "mean" "label" "standard" None "regression" (session [two_features_example]).
Proof.
  assert (Hk : forall X y w1 tX,
     Preprocessor.pipeline_features (H := sample_externals) 0%nat "y"
       "mean" "label" "standard" "regression" (session [two_features_example])
       = (Ok (X, y), w1) ->
     frames w1 !! X = Some tX -> (Z.of_nat (length tX) <= 5)%Z).
  { intros X y w1 tX Hrun HX. vm_compute in Hrun. inversion Hrun; subst.
    vm_compute in HX. inversion HX; subst. simpl. lia. }
  split; [exact Hk|].
  exact (proj1 (feature_count_not_below_columns_is_ignored (H := sample_externals)
                  0%nat "y" (1 # 5) "mean" "label" "standard" 5%Z "regression"
                  (session [two_features_example]) Hk)).
Defined.

(** ** The RSI at its boundaries *)

(** ** Positions in series *)

Lemma lookup_map {A B : Type} (f : A -> B) (l : list A) (i : nat) :
  map f l !! i = f <$> (l !! i).
Proof. revert i. induction l as [|x l IH]; intros [|i]; simpl; auto. Qed.

Lemma lookup_combine {A B : Type} (xs : list A) (ys : list B) (i : nat) (x : A) (y : B) :
  xs !! i = Some x -> ys !! i = Some y -> combine xs ys !! i = Some (x, y).
Proof.
  revert ys i. induction xs as [|x' xs IH]; intros [|y' ys] [|i]; simpl; try done.
  - by intros [= ->] [= ->].
  - apply IH.
Qed.

Lemma lookup_zip_with_f (f : fval -> fval -> fval) (xs ys : list fval) (i : nat)
    (x y : fval) :
  xs !! i = Some x -> ys !! i = Some y -> zip_with_f f xs ys !! i = Some (f x y).
Proof.
  intros Hx Hy. unfold zip_with_f.
  by rewrite lookup_map, (lookup_combine _ _ _ _ _ Hx Hy).
Qed.

Lemma length_shift1 (xs : list fval) : length (shift1 xs) = length xs.
Proof. unfold shift1. rewrite length_take. simpl. lia. Qed.

Lemma shift1_lookup_0 (xs : list fval) (x : fval) :
  xs !! 0%nat = Some x -> shift1 xs !! 0%nat = Some NaN.
Proof. destruct xs; [done|]. by intros _. Qed.

Lemma shift1_lookup_S (xs : list fval) (j : nat) :
  (S j < length xs)%nat -> shift1 xs !! S j = xs !! j.
Proof. intros Hj. unfold shift1. by rewrite lookup_take_lt. Qed.

Lemma length_zip_with_f (f : fval -> fval -> fval) (xs ys : list fval) :
  length xs = length ys -> length (zip_with_f f xs ys) = length xs.
Proof.
  intros Hlen. unfold zip_with_f. rewrite length_map, length_combine. lia.
Qed.

Lemma length_diff (xs : list fval) : length (diff xs) = length xs.
Proof. unfold diff. apply length_zip_with_f. by rewrite length_shift1. Qed.

Lemma length_rolling_mean (w : nat) (xs : list fval) :
  length (rolling_mean w xs) = length xs.
Proof. unfold rolling_mean. by rewrite length_map, length_seq. Qed.

Lemma lookup_rolling_mean (w : nat) (xs : list fval) (i : nat) :
  (i < length xs)%nat -> rolling_mean w xs !! i = Some (rolling_mean_at w xs i).
Proof.
  intros Hi. unfold rolling_mean. rewrite lookup_map.
  by rewrite lookup_seq_lt.
Qed.

(** ** Sums and means of finite cells *)

Definition sumQ (qs : list Q) : Q := fold_right Qplus 0 qs.

Lemma fold_fadd_Fin (qs : list Q) : forall a,
  exists s, fold_left fadd (map Fin qs) (Fin a) = Fin s /\ s == a + sumQ qs.
Proof.
  induction qs as [|q qs IH]; intros a; simpl.
  - exists a. split; [done|lra].
  - destruct (IH (Qred (a + q))) as (s & Hs & Heq). exists s. split; [done|].
    rewrite Heq, Qred_correct. lra.
Qed.

Lemma sumQ_nonneg (qs : list Q) : Forall (fun q => 0 <= q) qs -> 0 <= sumQ qs.
Proof. induction 1; simpl; lra. Qed.

Lemma sumQ_pos (qs : list Q) :
  Forall (fun q => 0 <= q) qs -> Exists (fun q => 0 < q) qs -> 0 < sumQ qs.
Proof.
  induction 1 as [|q qs Hq Hqs IH]; intros Hex; [by inversion Hex|].
  simpl. pose proof (sumQ_nonneg qs Hqs).
  inversion Hex; subst; [lra|]. specialize (IH ltac:(done)). lra.
Qed.

Lemma sumQ_zero (qs : list Q) : Forall (fun q => q == 0) qs -> sumQ qs == 0.
Proof. induction 1 as [|q qs Hq Hqs IH]; simpl; [lra|]. rewrite Hq, IH. lra. Qed.

(** A list of cells that are all finite is the image of a list of rationals. *)
Lemma all_finite (P : Q -> Prop) (xs : list fval) :
  (forall i x, xs !! i = Some x -> exists q, x = Fin q /\ P q) ->
  exists qs, xs = map Fin qs /\ Forall P qs.
Proof.
  induction xs as [|x xs IH]; intros Hxs.
  - by exists [].
  - destruct (Hxs 0%nat x eq_refl) as (q & -> & Hq).
    destruct IH as (qs & -> & Hqs); [intros i y Hy; by apply (Hxs (S i))|].
    exists (q :: qs). split; [done|]. by constructor.
Qed.

Lemma existsb_isnull_Fin (qs : list Q) : existsb isnull (map Fin qs) = false.
Proof. induction qs; simpl; auto. Qed.

(** ** Rolling windows *)

Lemma window_lookup (i k : nat) (xs : list fval) (x : fval) :
  (13 <= i)%nat -> window 14 i xs !! k = Some x ->
  (k < 14)%nat /\ xs !! (i - 13 + k)%nat = Some x.
Proof.
  intros Hi. unfold window.
  replace (min 14 (S i)) with 14%nat by lia. replace (S i - 14)%nat with (i - 13)%nat by lia.
  intros [Hx Hk]%lookup_take_Some. split; [done|]. by rewrite lookup_drop in Hx.
Qed.

Lemma window_length (i : nat) (xs : list fval) :
  (13 <= i < length xs)%nat -> length (window 14 i xs) = 14%nat.
Proof.
  intros Hi. unfold window. rewrite length_take, length_drop. lia.
Qed.

Lemma window_last (i : nat) (xs : list fval) :
  (13 <= i < length xs)%nat -> window 14 i xs !! 13%nat = xs !! i.
Proof.
  intros Hi. unfold window.
  replace (min 14 (S i)) with 14%nat by lia. replace (S i - 14)%nat with (i - 13)%nat by lia.
  rewrite lookup_take_lt by lia. rewrite lookup_drop. f_equal. lia.
Qed.

(** The mean over a window of finite cells. *)
Lemma rolling_mean_at_finite (P : Q -> Prop) (ys : list fval) (i : nat) :
  (13 <= i < length ys)%nat ->
  (forall j x, (i - 13 <= j <= i)%nat -> ys !! j = Some x -> exists q, x = Fin q /\ P q) ->
  exists qs s,
    window 14 i ys = map Fin qs /\ Forall P qs /\ s == sumQ qs /\
    rolling_mean_at 14 ys i = Fin (Qred (s / 14)).
Proof.
  intros Hi Hys.
  destruct (all_finite P (window 14 i ys)) as (qs & Hwin & Hqs).
  { intros k x Hk. apply window_lookup in Hk as [Hk Hx]; [|lia].
    apply (Hys (i - 13 + k)%nat); [lia|done]. }
  destruct (fold_fadd_Fin qs 0) as (s & Hsum & Hs).
  exists qs, s. split; [done|]. split; [done|]. split; [rewrite Hs; lra|].
  unfold rolling_mean_at. rewrite window_length by done.
  rewrite Hwin, existsb_isnull_Fin. simpl. unfold fsum. by rewrite Hsum.
Qed.

Lemma rolling_mean_at_zero (ys : list fval) (i : nat) :
  (13 <= i < length ys)%nat ->
  (forall j x, (i - 13 <= j <= i)%nat -> ys !! j = Some x -> exists q, x = Fin q /\ q == 0) ->
  rolling_mean_at 14 ys i = Fin 0.
Proof.
  intros Hi Hys.
  destruct (rolling_mean_at_finite _ ys i Hi Hys) as (qs & s & _ & Hqs & Hs & ->).
  f_equal. apply (Qred_complete (s / 14) 0).
  rewrite Hs, (sumQ_zero qs Hqs). reflexivity.
Qed.

Lemma rolling_mean_at_positive (ys : list fval) (i : nat) :
  (13 <= i < length ys)%nat ->
  (forall j x, (i - 13 <= j <= i)%nat -> ys !! j = Some x -> exists q, x = Fin q /\ 0 <= q) ->
  (exists q, ys !! i = Some (Fin q) /\ 0 < q) ->
  exists m, rolling_mean_at 14 ys i = Fin m /\ 0 < m.
Proof.
  intros Hi Hys (q & Hq & Hpos).
  destruct (rolling_mean_at_finite _ ys i Hi Hys) as (qs & s & Hwin & Hqs & Hs & ->).
  eexists. split; [done|]. rewrite Qred_correct.
  assert (Hsum : 0 < sumQ qs).
  { apply sumQ_pos; [done|]. apply Exists_exists. exists q. split; [|done].
    rewrite <- window_last, Hwin, lookup_map in Hq by done.
    destruct (qs !! 13%nat) as [q'|] eqn:Hq'; [|done].
    simpl in Hq. inversion Hq; subst. by eapply list_elem_of_lookup_2. }
  rewrite Hs. apply Qlt_shift_div_l; lra.
Qed.

(** ** The RSI at the two boundaries *)

(** The value [100 - 100 / (1 + gain / loss)] for one row. *)
Definition rsi_of (gain loss : fval) : fval :=
  fsub (Fin 100) (fdiv (Fin 100) (fadd (Fin 1) (fdiv gain loss))).

Lemma rsi_of_no_loss (g : Q) : 0 < g -> rsi_of (Fin g) (Fin 0) = Fin 100.
Proof.
  intros Hg. unfold rsi_of. cbn [fdiv]. change (Qeq_bool 0 0) with true. cbv iota.
  assert (Hne : Qeq_bool g 0 = false).
  { destruct (Qeq_bool g 0) eqn:E; [|done]. apply Qeq_bool_eq in E. lra. }
  assert (Hlt : Qltb 0 g = true).
  { unfold Qltb. destruct (Qle_bool g 0) eqn:E; [|done]. apply Qle_bool_iff in E. lra. }
  rewrite Hne, Hlt. reflexivity.
Qed.

Lemma rsi_of_no_gain (l : Q) : 0 < l -> rsi_of (Fin 0) (Fin l) = Fin 0.
Proof.
  intros Hl. unfold rsi_of. cbn [fdiv].
  assert (Hne : Qeq_bool l 0 = false).
  { destruct (Qeq_bool l 0) eqn:E; [|done]. apply Qeq_bool_eq in E. lra. }
  rewrite Hne.
  assert (Hz : Qred (0 / l) = 0).
  { apply (Qred_complete (0 / l) 0). unfold Qdiv. lra. }
  rewrite Hz. reflexivity.
Qed.

Lemma Qltb_lt (a b : Q) : a < b -> Qltb a b = true.
Proof.
  intros Hab. unfold Qltb. destruct (Qle_bool b a) eqn:E; [|done].
  apply Qle_bool_iff in E. lra.
Qed.

Lemma Qltb_ge (a b : Q) : b <= a -> Qltb a b = false.
Proof.
  intros Hab. unfold Qltb. apply Qle_bool_iff in Hab. by rewrite Hab.
Qed.

(** The two series whose rolling means the RSI divides. *)
Definition gains (close : list fval) : list fval :=
  where_ (fun d => fgt d (Fin 0)) (Fin 0) (diff close).

Definition losses (close : list fval) : list fval :=
  map fneg (where_ (fun d => flt d (Fin 0)) (Fin 0) (diff close)).

Lemma length_gains (close : list fval) : length (gains close) = length close.
Proof. unfold gains, where_. by rewrite length_map, length_diff. Qed.

Lemma length_losses (close : list fval) : length (losses close) = length close.
Proof. unfold losses, where_. by rewrite !length_map, length_diff. Qed.

Lemma rsi_lookup (close : list fval) (i : nat) :
  (i < length close)%nat ->
  Financial.rsi close !! i =
    Some (rsi_of (rolling_mean_at 14 (gains close) i)
                 (rolling_mean_at 14 (losses close) i)).
Proof.
  intros Hi. unfold Financial.rsi. fold (gains close). fold (losses close).
  rewrite lookup_map.
  erewrite lookup_zip_with_f;
    [reflexivity | apply lookup_rolling_mean | apply lookup_rolling_mean].
  - by rewrite length_gains.
  - by rewrite length_losses.
Qed.

Lemma diff_lookup_0 (close : list fval) (x : fval) :
  close !! 0%nat = Some x -> diff close !! 0%nat = Some NaN.
Proof.
  intros Hx. unfold diff.
  rewrite (lookup_zip_with_f _ _ _ _ x NaN Hx (shift1_lookup_0 _ _ Hx)).
  by destruct x.
Qed.

Lemma diff_lookup_S (close : list fval) (j : nat) (a b : fval) :
  close !! j = Some a -> close !! S j = Some b ->
  diff close !! S j = Some (fsub b a).
Proof.
  intros Ha Hb. unfold diff. apply lookup_zip_with_f; [done|].
  rewrite shift1_lookup_S; [done|]. by eapply lookup_lt_Some.
Qed.

(** Every change inside the 14-row window ending at row [i] is a rise. *)
Definition rising (close : list fval) (i : nat) : Prop :=
  forall j, (i - 13 <= j <= i)%nat -> (1 <= j)%nat ->
    exists a b, close !! (j - 1)%nat = Some (Fin a) /\ close !! j = Some (Fin b) /\ a < b.

(** Every change inside the 14-row window ending at row [i] is a fall. *)
Definition falling (close : list fval) (i : nat) : Prop :=
  forall j, (i - 13 <= j <= i)%nat -> (1 <= j)%nat ->
    exists a b, close !! (j - 1)%nat = Some (Fin a) /\ close !! j = Some (Fin b) /\ b < a.

(** The change at a row of the window, as the code computes it. *)
Lemma window_change (close : list fval) (i j : nat) (sign : Q -> Prop) :
  (i < length close)%nat ->
  (forall j, (i - 13 <= j <= i)%nat -> (1 <= j)%nat ->
     exists a b, close !! (j - 1)%nat = Some (Fin a) /\ close !! j = Some (Fin b) /\
                 sign (b - a)) ->
  (forall p q, p == q -> sign p -> sign q) ->
  (i - 13 <= j <= i)%nat ->
  (j = 0%nat /\ diff close !! j = Some NaN) \/
  ((1 <= j)%nat /\ exists d, diff close !! j = Some (Fin d) /\ sign d).
Proof.
  intros Hi Hwin Hsign Hj. destruct j as [|j].
  - left. split; [done|].
    destruct (close !! 0%nat) as [x|] eqn:Hx; [by eapply diff_lookup_0|].
    apply lookup_ge_None in Hx. lia.
  - right. split; [lia|].
    destruct (Hwin (S j) Hj ltac:(lia)) as (a & b & Ha & Hb & Hab).
    replace (S j - 1)%nat with j in Ha by lia.
    exists (Qred (b + - a)). split; [by rewrite (diff_lookup_S _ _ _ _ Ha Hb)|].
    apply (Hsign (b - a)); [|done]. rewrite Qred_correct. lra.
Qed.

Lemma rsi_rising (close : list fval) (i : nat) :
  (13 <= i < length close)%nat -> rising close i ->
  Financial.rsi close !! i = Some (Fin 100).
Proof.
  intros Hi Hrise. rewrite rsi_lookup by lia.
  assert (Hchange : forall j, (i - 13 <= j <= i)%nat ->
            (j = 0%nat /\ diff close !! j = Some NaN) \/
            ((1 <= j)%nat /\ exists d, diff close !! j = Some (Fin d) /\ 0 < d)).
  { intros j Hj. apply (window_change close i j (fun d => 0 < d)); [lia| | |done].
    - intros j' Hj' H1. destruct (Hrise j' Hj' H1) as (a & b & ? & ? & ?).
      exists a, b. repeat split; [done..|lra].
    - intros p q Hpq Hp. by rewrite <- Hpq. }
  assert (Hloss : rolling_mean_at 14 (losses close) i = Fin 0).
  { apply rolling_mean_at_zero; [by rewrite length_losses|].
    intros j x Hj. unfold losses, where_. rewrite !lookup_map.
    destruct (Hchange j Hj) as [[_ ->]|[_ (d & -> & Hd)]]; simpl; intros [= <-].
    - by exists (- 0).
    - rewrite (Qltb_ge d 0) by lra. by exists (- 0). }
  destruct (rolling_mean_at_positive (gains close) i) as (m & -> & Hm).
  - by rewrite length_gains.
  - intros j x Hj. unfold gains, where_. rewrite lookup_map.
    destruct (Hchange j Hj) as [[_ ->]|[_ (d & -> & Hd)]]; simpl; intros [= <-].
    + exists 0. split; [done|lra].
    + rewrite (Qltb_lt 0 d) by done. exists d. split; [done|lra].
  - unfold gains, where_. rewrite lookup_map.
    destruct (Hchange i ltac:(lia)) as [[-> _]|[_ (d & -> & Hd)]]; [lia|]. simpl.
    rewrite (Qltb_lt 0 d) by done. by exists d.
  - rewrite Hloss. by rewrite rsi_of_no_loss.
Qed.

Lemma rsi_falling (close : list fval) (i : nat) :
  (13 <= i < length close)%nat -> falling close i ->
  Financial.rsi close !! i = Some (Fin 0).
Proof.
  intros Hi Hfall. rewrite rsi_lookup by lia.
  assert (Hchange : forall j, (i - 13 <= j <= i)%nat ->
            (j = 0%nat /\ diff close !! j = Some NaN) \/
            ((1 <= j)%nat /\ exists d, diff close !! j = Some (Fin d) /\ d < 0)).
  { intros j Hj. apply (window_change close i j (fun d => d < 0)); [lia| | |done].
    - intros j' Hj' H1. destruct (Hfall j' Hj' H1) as (a & b & ? & ? & ?).
      exists a, b. repeat split; [done..|lra].
    - intros p q Hpq Hp. by rewrite <- Hpq. }
  assert (Hgain : rolling_mean_at 14 (gains close) i = Fin 0).
  { apply rolling_mean_at_zero; [by rewrite length_gains|].
    intros j x Hj. unfold gains, where_. rewrite lookup_map.
    destruct (Hchange j Hj) as [[_ ->]|[_ (d & -> & Hd)]]; simpl; intros [= <-].
    - by exists 0.
    - rewrite (Qltb_ge 0 d) by lra. by exists 0. }
  destruct (rolling_mean_at_positive (losses close) i) as (m & -> & Hm).
  - by rewrite length_losses.
  - intros j x Hj. unfold losses, where_. rewrite !lookup_map.
    destruct (Hchange j Hj) as [[_ ->]|[_ (d & -> & Hd)]]; simpl; intros [= <-].
    + exists (- 0). split; [done|lra].
    + rewrite (Qltb_lt d 0) by done. exists (- d). split; [done|lra].
  - unfold losses, where_. rewrite !lookup_map.
    destruct (Hchange i ltac:(lia)) as [[-> _]|[_ (d & -> & Hd)]]; [lia|]. simpl.
    rewrite (Qltb_lt d 0) by done. exists (- d). split; [done|lra].
  - rewrite Hgain. by rewrite rsi_of_no_gain.
Qed.

(** ** The RSI column of [add_technical_indicators] *)

Section Indicators.
Import Financial.
Context `{Externals}.

Lemma num_upd (w : world) (l : loc) (T : table) (name : string) (xs : list fval) :
  (l < length (frames w))%nat -> lookup_col name T = Some (NumCol xs) ->
  num l name (upd l T w) = (Ok xs, upd l T w).
Proof.
  intros Hl Hc. unfold num.
  by rewrite (bind_ok _ _ _ _ _ (getitem_ok _ _ _ _ _ (frames_upd_eq _ _ _ Hl) Hc)).
Qed.

Lemma assign_upd (w : world) (l : loc) (T : table) (name : string) (xs : list fval) :
  (l < length (frames w))%nat ->
  assign l name xs (upd l T w) = (Ok tt, upd l (set_col name (NumCol xs) T) w).
Proof.
  intros Hl. unfold assign.
  rewrite (setitem_ok _ _ _ _ _ (frames_upd_eq _ _ _ Hl)). by rewrite upd_upd.
Qed.

(** Looks a column up in a table built by assignments to known names. *)
Ltac lookup_assigned :=
  repeat (rewrite lookup_set_col; cbn [String.eqb Ascii.eqb Bool.eqb]);
  first [reflexivity | eassumption].

Ltac run_num Hl :=
  erewrite bind_ok by (apply num_upd; [exact Hl | lookup_assigned]).

Ltac run_assign Hl :=
  rewrite (bind_ok _ _ _ _ _ (assign_upd _ _ _ _ _ Hl)).

(** On a table with numeric price and volume columns every indicator is
    computed, and the RSI column is the series [rsi] of the closing prices. *)
Lemma indicator_columns_run (w : world) (df : loc) (t : table)
    (close volume open high low : list fval) :
  (df < length (frames w))%nat ->
  lookup_col "Close" t = Some (NumCol close) ->
  lookup_col "Volume" t = Some (NumCol volume) ->
  lookup_col "Open" t = Some (NumCol open) ->
  lookup_col "High" t = Some (NumCol high) ->
  lookup_col "Low" t = Some (NumCol low) ->
  exists T,
    indicator_columns df (upd df t w) = (Ok tt, upd df T w) /\
    lookup_col "RSI" T = Some (NumCol (rsi close)).
Proof.
  intros Hl Hclose Hvolume Hopen Hhigh Hlow. unfold indicator_columns.
  repeat first [run_num Hl | run_assign Hl].
  rewrite assign_upd by exact Hl.
  eexists. split; [reflexivity|]. lookup_assigned.
Qed.

End Indicators.

Section Boundary.
Import Financial.
Context `{Externals}.

(** C5.  On a table with numeric price and volume columns
    [add_technical_indicators] adds an [RSI] column whose row [i], from the
    fourteenth row on, is [100 - 100 / (1 + gain / loss)] for the means of
    the gains and of the losses over the 14-row window.  It is 100 when every
    change in the window is a rise (the mean loss is zero) and 0 when every
    change is a fall (the mean gain is zero). *)
Theorem rsi_boundary (w : world) (data : loc) (t : table)
    (close volume open high low : list fval) (i : nat) :
  frames w !! data = Some t ->
  lookup_col "Close" t = Some (NumCol close) ->
  lookup_col "Volume" t = Some (NumCol volume) ->
  lookup_col "Open" t = Some (NumCol open) ->
  lookup_col "High" t = Some (NumCol high) ->
  lookup_col "Low" t = Some (NumCol low) ->
  (13 <= i < length close)%nat ->
  exists (df : loc) (w' : world) (T : table) (rsi_col : list fval),
    add_technical_indicators data w = (Ok df, w') /\
    frames w' !! df = Some T /\
    lookup_col "RSI" T = Some (NumCol rsi_col) /\
    rsi_col !! i = Some (rsi_of (rolling_mean_at 14 (gains close) i)
                                (rolling_mean_at 14 (losses close) i)) /\
    (rising close i -> rsi_col !! i = Some (Fin 100)) /\
    (falling close i -> rsi_col !! i = Some (Fin 0)).
Proof.
  intros Hdata Hclose Hvolume Hopen Hhigh Hlow Hi.
  set (w1 := {| frames := frames w ++ [t]; self := self w; ui := ui w |}).
  assert (Hl : (length (frames w) < length (frames w1))%nat).
  { simpl. rewrite length_app. simpl. lia. }
  assert (Hw1 : frames w1 !! length (frames w) = Some t).
  { simpl. by rewrite lookup_app_r, Nat.sub_diag. }
  destruct (indicator_columns_run w1 (length (frames w)) t close volume open high low
              Hl Hclose Hvolume Hopen Hhigh Hlow) as (T & Hrun & Hrsi).
  rewrite (upd_id w1 _ t Hw1) in Hrun.
  exists (length (frames w)), (upd (length (frames w)) T w1), T, (rsi close).
  split.
  { unfold add_technical_indicators, try_except.
    rewrite (bind_ok _ _ _ _ _ (copy_ok _ _ _ Hdata)). fold w1.
    by rewrite (bind_ok _ _ _ _ _ Hrun). }
  split; [by apply frames_upd_eq|]. split; [done|].
  split; [apply rsi_lookup; lia|]. split.
  - by apply rsi_rising.
  - by apply rsi_falling.
Qed.

End Boundary.

(** Fifteen rows of rising prices. *)
Definition rising_closes : list fval :=
  map (fun n => Fin (inject_Z (Z.of_nat n))) (seq 1 15).

Definition rising_prices : table :=
  [("Open", NumCol rising_closes); ("High", NumCol rising_closes);
   ("Low", NumCol rising_closes); ("Close", NumCol rising_closes);
   ("Volume", NumCol rising_closes)].

Example rsi_of_rising_prices :
  Financial.rsi rising_closes !! 14%nat = Some (Fin 100) /\
  Financial.rsi (rev rising_closes) !! 14%nat = Some (Fin 0).
Proof. vm_compute. split; reflexivity. Qed.

Lemma rsi_boundary_witness :
  (frames (session [rising_prices]) !! 0%nat = Some rising_prices /\
   lookup_col "Close" rising_prices = Some (NumCol rising_closes) /\
   lookup_col "Volume" rising_prices = Some (NumCol rising_closes) /\
   lookup_col "Open" rising_prices = Some (NumCol rising_closes) /\
   lookup_col "High" rising_prices = Some (NumCol rising_closes) /\
   lookup_col "Low" rising_prices = Some (NumCol rising_closes) /\
   (13 <= 14 < length rising_closes)%nat) /\
  exists (df : loc) (w' : world) (T : table) (rsi_col : list fval),
    Financial.add_technical_indicators (H := sample_externals) 0%nat
      (session [rising_prices]) = (Ok df, w') /\
    frames w' !! df = Some T /\
    lookup_col "RSI" T = Some (NumCol rsi_col) /\
    rsi_col !! 14%nat =
      Some (rsi_of (rolling_mean_at 14 (gains rising_closes) 14)
                   (rolling_mean_at 14 (losses rising_closes) 14)) /\
    (rising rising_closes 14 -> rsi_col !! 14%nat = Some (Fin 100)) /\
    (falling rising_closes 14 -> rsi_col !! 14%nat = Some (Fin 0)).
Proof.
  assert (Hi : (13 <= 14 < length rising_closes)%nat) by (vm_compute; lia).
  split; [repeat split; first [reflexivity | apply Hi]|].
  exact (rsi_boundary (H := sample_externals) (session [rising_prices]) 0%nat
           rising_prices rising_closes rising_closes rising_closes rising_closes
           rising_closes 14 eq_refl eq_refl eq_refl eq_refl eq_refl eq_refl Hi).
Defined.

(** ** Targets and the final dataset on concrete series *)

(** The closing prices 10, 12, 11, 15. *)
Definition closes_example : table :=
  [("Close", NumCol [Fin 10; Fin 12; Fin 11; Fin 15])].

Definition closes_with_direction : table :=
  [("Close", NumCol [Fin 10; Fin 12; Fin 11; Fin 15]);
   ("Target", NumCol [Fin 1; Fin 0; Fin 1; Fin 0])].

(** An intraday price series: the timestamp column is called [Datetime]. *)
Definition intraday_example : table :=
  [("Datetime", DateCol [Some (mk_datetime 2024 1 2); Some (mk_datetime 2024 1 2);
                         Some (mk_datetime 2024 1 3)]);
   ("Open", NumCol [Fin 10; Fin 11; Fin 12]);
   ("High", NumCol [Fin 11; Fin 12; Fin 13]);
   ("Low", NumCol [Fin 9; Fin 10; Fin 11]);
   ("Close", NumCol [Fin 10; Fin 12; Fin 11]);
   ("Volume", NumCol [Fin 100; Fin 200; Fin 300])].

(** *** Rows without a shifted close *)

Lemma keep_all {A : Type} (n : nat) (xs : list A) :
  (length xs <= n)%nat -> keep (repeat true n) xs = xs.
Proof.
  revert n. induction xs as [|x xs IH]; intros [|n] Hn; simpl in *; try done; try lia.
  rewrite IH; [done|lia].
Qed.

Lemma keep_rows_all (n : nat) (t : table) :
  Forall (fun nc => col_length (snd nc) = n) t -> keep_rows (repeat true n) t = t.
Proof.
  induction 1 as [|[name c] t Hc Ht IH]; [done|].
  unfold keep_rows in *. cbn [map fst snd]. rewrite IH. f_equal. f_equal.
  simpl in Hc. destruct c; simpl in *; by rewrite keep_all by lia.
Qed.

Lemma length_shift_back (k : nat) (xs : list fval) :
  length (shift_back k xs) = length xs.
Proof. unfold shift_back. rewrite length_drop, length_app, repeat_length. lia. Qed.

Lemma isnull_of_bool (bs : list bool) :
  map negb (map isnull (map of_bool bs)) = repeat true (length bs).
Proof. induction bs as [|[] bs IH]; simpl; by rewrite ?IH. Qed.

Lemma set_col_lengths (n : nat) (name : string) (c : column) (t : table) :
  col_length c = n ->
  Forall (fun nc => col_length (snd nc) = n) t ->
  Forall (fun nc => col_length (snd nc) = n) (set_col name c t).
Proof.
  intros Hc. induction 1 as [|[name' c'] t Hc' Ht IH]; simpl.
  - by repeat constructor.
  - destruct (String.eqb name' name); by constructor.
Qed.

(** *** No null survives [dropna] *)

Lemma lookup_combine_inv {A B : Type} (xs : list A) (ys : list B) (i : nat) (p : A * B) :
  combine xs ys !! i = Some p -> xs !! i = Some (fst p) /\ ys !! i = Some (snd p).
Proof.
  revert ys i. induction xs as [|x xs IH]; intros [|y ys] [|i]; simpl; try done.
  - by intros [= <-].
  - apply IH.
Qed.

Lemma notnull_mask_sound (n : nat) (cols : list column) (c : column) (i : nat) :
  In c cols -> notnull_mask n cols !! i = Some true -> col_isnull c !! i = Some false.
Proof.
  induction cols as [|c' cols IH]; [done|]. cbn [notnull_mask].
  intros Hin Hmask. rewrite lookup_map in Hmask.
  destruct (combine (col_isnull c') (notnull_mask n cols) !! i) as [[a b]|] eqn:Hp;
    [|done].
  apply lookup_combine_inv in Hp as [Ha Hb]. simpl in *.
  injection Hmask as Hab. apply andb_true_iff in Hab as [Ha' ->].
  apply negb_true_iff in Ha' as ->.
  destruct Hin as [<-|Hin]; [done|by apply IH].
Qed.

Lemma keep_no_null {A : Type} (nullp : A -> bool) (mask : list bool) (xs : list A) :
  (forall i, mask !! i = Some true -> map nullp xs !! i = Some false) ->
  existsb id (map nullp (keep mask xs)) = false.
Proof.
  revert xs. induction mask as [|b mask IH]; intros [|x xs] Hmask; try done.
  cbn [keep]. destruct b.
  - cbn [map existsb]. specialize (Hmask 0%nat eq_refl) as H0. simpl in H0.
    injection H0 as ->. simpl. apply IH. intros i Hi. apply (Hmask (S i) Hi).
  - apply IH. intros i Hi. apply (Hmask (S i) Hi).
Qed.

Lemma col_keep_no_null (mask : list bool) (c : column) :
  (forall i, mask !! i = Some true -> col_isnull c !! i = Some false) ->
  has_null (col_keep mask c) = false.
Proof. destruct c; simpl; unfold has_null; simpl; apply keep_no_null. Qed.

(** Every column of [dropna t] is free of nulls. *)
Lemma dropna_no_null (t : table) (nc : string * column) :
  In nc (dropna t) -> has_null (snd nc) = false.
Proof.
  unfold dropna, keep_rows. intros ([name c] & <- & Hin)%in_map_iff. simpl.
  apply col_keep_no_null. intros i Hi.
  apply (notnull_mask_sound (nrows t) (map snd t)); [|done].
  apply in_map_iff. by exists (name, c).
Qed.

Section TargetExamples.
Import Financial.
Context `{Externals}.

(** Whenever [prepare_ml_dataset] hands back a table of its own (no error
    was caught), that table is the result of a [dropna] and holds no null. *)
Lemma prepare_ml_dataset_no_null (w w' : world) (data df : loc)
    (task_type target_method : string) (periods : nat) (include : bool) :
  prepare_ml_dataset data task_type target_method periods include w = (Ok df, w') ->
  df <> data ->
  exists T, frames w' !! df = Some T /\
            forall nc, In nc T -> has_null (snd nc) = false.
Proof.
  unfold prepare_ml_dataset, try_except.
  match goal with |- context [match ?body w with _ => _ end] =>
    destruct (body w) as [[a|e] w1] eqn:Hbody end.
  - intros [= -> ->] _.
    repeat (apply bind_Ok_inv in Hbody as (? & ? & _ & Hbody)).
    unfold alloc in Hbody. injection Hbody as <- <-. simpl.
    eexists. split; [by rewrite lookup_app_r, Nat.sub_diag|].
    apply dropna_no_null.
  - unfold bind, show, ret. simpl. by intros [= -> _] [].
Qed.

(** The [price_direction] target on any price series: the target column
    never holds a null, so [dropna(subset=['Target'])] keeps every row. *)
Lemma price_direction_drops_no_row (w : world) (data : loc) (t : table)
    (close : list fval) (periods : nat) :
  frames w !! data = Some t ->
  lookup_col "Close" t = Some (NumCol close) ->
  Forall (fun nc => col_length (snd nc) = length close) t ->
  exists (df : loc) (w' : world),
    create_classification_target data "price_direction" periods w = (Ok df, w') /\
    frames w' !! df =
      Some (set_col "Target"
              (NumCol (map of_bool (zip_with_b fgt (shift_back periods close) close))) t).
Proof.
  intros Hdata Hclose Hlen.
  set (target := map of_bool (zip_with_b fgt (shift_back periods close) close)).
  set (w1 := {| frames := frames w ++ [t]; self := self w; ui := ui w |}).
  assert (Hl : (length (frames w) < length (frames w1))%nat).
  { simpl. rewrite length_app. simpl. lia. }
  assert (Hw1 : frames w1 !! length (frames w) = Some t).
  { simpl. by rewrite lookup_app_r, Nat.sub_diag. }
  assert (Hzip : length (zip_with_b fgt (shift_back periods close) close) = length close).
  { unfold zip_with_b. rewrite length_map, length_combine, length_shift_back. lia. }
  assert (Htarget : length target = length close).
  { unfold target. by rewrite length_map. }
  assert (Hdrop : dropna_subset "Target" (set_col "Target" (NumCol target) t) =
                  Ok (set_col "Target" (NumCol target) t)).
  { unfold dropna_subset. rewrite lookup_set_col, String.eqb_refl. f_equal.
    cbn [col_isnull]. unfold target at 1. rewrite isnull_of_bool, Hzip.
    apply keep_rows_all. by apply set_col_lengths. }
  eexists _, _. split.
  - unfold create_classification_target, try_except.
    rewrite (bind_ok _ _ _ _ _ (copy_ok _ _ _ Hdata)). fold w1.
    cbn [String.eqb Ascii.eqb Bool.eqb]. rewrite <- (upd_id w1 _ t Hw1).
    rewrite (bind_ok _ _ _ (upd (length (frames w)) (set_col "Target" (NumCol target) t) w1)
               (length (frames w))).
    + unfold drop_missing_target.
      rewrite (bind_ok _ _ _ _ _ (read_ok _ _ _ (frames_upd_eq _ _ _ Hl))).
      unfold lift, bind at 1. rewrite Hdrop. reflexivity.
    + rewrite (bind_ok _ _ _ _ _ (num_upd _ _ _ _ _ Hl Hclose)).
      rewrite (bind_ok _ _ _ _ _ (num_upd _ _ _ _ _ Hl Hclose)).
      by rewrite (bind_ok _ _ _ _ _ (assign_upd _ _ _ _ _ Hl)).
  - simpl. rewrite lookup_app_r; rewrite length_insert; [|done].
    by rewrite Nat.sub_diag.
Qed.

(** C1.  On the closes 10, 12, 11, 15 with [periods = 1] the code returns
    all four rows with the targets 1, 0, 1, 0: the last row, whose shifted
    close does not exist, gets the target 0 and is not dropped. *)
Theorem price_direction_keeps_last_row :
  create_classification_target 0%nat "price_direction" 1 (session [closes_example]) =
  (Ok 2%nat, session [closes_example; closes_with_direction; closes_with_direction]).
Proof. vm_compute. reflexivity. Qed.

(** The sibling regression target does lose the last row. *)
Example next_close_drops_last_row :
  create_regression_target 0%nat "next_close" 1 (session [closes_example]) =
  (Ok 2%nat,
   session [closes_example;
            [("Close", NumCol [Fin 10; Fin 12; Fin 11; Fin 15]);
             ("Target", NumCol [Fin 12; Fin 11; Fin 15; NaN])];
            [("Close", NumCol [Fin 10; Fin 12; Fin 11]);
             ("Target", NumCol [Fin 12; Fin 11; Fin 15])]]).
Proof. vm_compute. reflexivity. Qed.

(** C8.  The dataset built from an intraday series still holds the
    [Datetime] column, which is not numeric: only the column named [Date]
    and the columns of dtype [object] are dropped. *)
Theorem prepare_ml_dataset_keeps_datetime_column :
  exists (df : loc) (w' : world) (T : table),
    prepare_ml_dataset 0%nat "classification" "price_direction" 1 false
      (session [intraday_example]) = (Ok df, w') /\
    frames w' !! df = Some T /\
    lookup_col "Datetime" T =
      Some (DateCol [Some (mk_datetime 2024 1 2); Some (mk_datetime 2024 1 2);
                     Some (mk_datetime 2024 1 3)]) /\
    forallb (fun nc => is_numeric (snd nc)) T = false.
Proof. do 3 eexists. vm_compute. repeat split; reflexivity. Qed.

End TargetExamples.
